(** * RDA5807 FM tuner driver (drivers/media/radio/radio-rda5807.c)

    A shallow embedding of the register-level control logic of the driver:
    the I2C register accessors, the read-modify-write primitive, the control
    encoders, the tuner status decoder, probing and resume.

    C integers are modelled as [Z] with every conversion to a fixed width
    written out.  The I2C adapter and the chip behind it are modelled as an
    explicit state threaded through every function; the log calls
    ([dev_info], [dev_warn]) have no effect on that state and are left out. *)

From Stdlib Require Import String ZArith List Lia Bool.
Import ListNotations.
Local Open Scope Z_scope.

(** ** Fixed-width integers *)

Definition u8 (x : Z) : Z := x mod 2 ^ 8.
Definition u16 (x : Z) : Z := x mod 2 ^ 16.
Definition u32 (x : Z) : Z := x mod 2 ^ 32.

(** [BIT(n)] of linux/bitops.h as the driver uses it: [1UL << n]. *)
Definition BIT (n : Z) : Z := Z.shiftl 1 n.

(** ** Constants of kernel headers

    The errno values and the V4L2 constants come from headers that are not
    part of the driver file.  They are taken as parameters; the only facts
    assumed about them are that errno values are positive and that the two
    sub-channel flags and their union are three different words. *)

Class kernel_headers : Type := {
  EIO : Z;
  ERANGE : Z;
  ENODEV : Z;
  EINVAL : Z;
  ENOMEM : Z;
  V4L2_CID_AUDIO_MUTE : Z;
  V4L2_CID_AUDIO_VOLUME : Z;
  V4L2_CID_TUNE_PREEMPHASIS : Z;
  V4L2_PREEMPHASIS_DISABLED : Z;
  V4L2_PREEMPHASIS_50_uS : Z;
  V4L2_PREEMPHASIS_75_uS : Z;
  V4L2_TUNER_RADIO : Z;
  V4L2_TUNER_CAP_LOW : Z;
  V4L2_TUNER_CAP_STEREO : Z;
  V4L2_TUNER_SUB_MONO : Z;
  V4L2_TUNER_SUB_STEREO : Z;
  V4L2_TUNER_MODE_STEREO : Z;
  V4L2_AUDCAP_STEREO : Z;
  VFL_TYPE_RADIO : Z;
  EIO_pos : 0 < EIO;
  ERANGE_pos : 0 < ERANGE;
  ENODEV_pos : 0 < ENODEV;
  EINVAL_pos : 0 < EINVAL;
  ENOMEM_pos : 0 < ENOMEM;
  sub_mono_stereo : V4L2_TUNER_SUB_MONO <> V4L2_TUNER_SUB_STEREO;
  sub_both_mono :
    Z.lor V4L2_TUNER_SUB_MONO V4L2_TUNER_SUB_STEREO <> V4L2_TUNER_SUB_MONO;
  sub_both_stereo :
    Z.lor V4L2_TUNER_SUB_MONO V4L2_TUNER_SUB_STEREO <> V4L2_TUNER_SUB_STEREO
}.

(** The values of the Linux 3.4 headers, used wherever the development
    evaluates the driver on a concrete input. *)
#[refine] Instance linux_3_4 : kernel_headers := {|
  EIO := 5;
  ERANGE := 34;
  ENODEV := 19;
  EINVAL := 22;
  ENOMEM := 12;
  V4L2_CID_AUDIO_MUTE := 0x00980909;
  V4L2_CID_AUDIO_VOLUME := 0x00980905;
  V4L2_CID_TUNE_PREEMPHASIS := 0x009b0970;
  V4L2_PREEMPHASIS_DISABLED := 0;
  V4L2_PREEMPHASIS_50_uS := 1;
  V4L2_PREEMPHASIS_75_uS := 2;
  V4L2_TUNER_RADIO := 1;
  V4L2_TUNER_CAP_LOW := 0x0001;
  V4L2_TUNER_CAP_STEREO := 0x0010;
  V4L2_TUNER_SUB_MONO := 0x0001;
  V4L2_TUNER_SUB_STEREO := 0x0002;
  V4L2_TUNER_MODE_STEREO := 0x0001;
  V4L2_AUDCAP_STEREO := 0x00001;
  VFL_TYPE_RADIO := 2
|}.
Proof. all: first [reflexivity | discriminate]. Defined.

(** ** Register map *)

Inductive rda5807_reg : Type :=
| RDA5807_REG_CHIPID
| RDA5807_REG_CTRL
| RDA5807_REG_CHAN
| RDA5807_REG_IOCFG
| RDA5807_REG_INTM_THRESH_VOL
| RDA5807_REG_SEEK_RESULT
| RDA5807_REG_SIGNAL.

Definition reg_addr (r : rda5807_reg) : Z :=
  match r with
  | RDA5807_REG_CHIPID => 0x00
  | RDA5807_REG_CTRL => 0x02
  | RDA5807_REG_CHAN => 0x03
  | RDA5807_REG_IOCFG => 0x04
  | RDA5807_REG_INTM_THRESH_VOL => 0x05
  | RDA5807_REG_SEEK_RESULT => 0x0A
  | RDA5807_REG_SIGNAL => 0x0B
  end.

Definition RDA5807_MASK_CTRL_DHIZ : Z := BIT 15.
Definition RDA5807_MASK_CTRL_DMUTE : Z := BIT 14.
Definition RDA5807_MASK_CTRL_MONO : Z := BIT 13.
Definition RDA5807_MASK_CTRL_BASS : Z := BIT 12.
Definition RDA5807_MASK_CTRL_SEEKUP : Z := BIT 9.
Definition RDA5807_MASK_CTRL_SEEK : Z := BIT 8.
Definition RDA5807_MASK_CTRL_SKMODE : Z := BIT 7.
Definition RDA5807_MASK_CTRL_CLKMODE : Z := Z.shiftl 7 4.
Definition RDA5807_MASK_CTRL_SOFTRESET : Z := BIT 1.
Definition RDA5807_MASK_CTRL_ENABLE : Z := BIT 0.

Definition RDA5807_SHIFT_CHAN_WRCHAN : Z := 6.
Definition RDA5807_MASK_CHAN_WRCHAN : Z :=
  Z.shiftl 0x3FF RDA5807_SHIFT_CHAN_WRCHAN.
Definition RDA5807_MASK_CHAN_TUNE : Z := BIT 4.
Definition RDA5807_SHIFT_CHAN_BAND : Z := 2.
Definition RDA5807_MASK_CHAN_BAND : Z := Z.shiftl 0x3 RDA5807_SHIFT_CHAN_BAND.
Definition RDA5807_SHIFT_CHAN_SPACE : Z := 0.
Definition RDA5807_MASK_CHAN_SPACE : Z :=
  Z.shiftl 0x3 RDA5807_SHIFT_CHAN_SPACE.

Definition RDA5807_MASK_SEEKRES_COMPLETE : Z := BIT 14.
Definition RDA5807_MASK_SEEKRES_FAIL : Z := BIT 13.
Definition RDA5807_MASK_SEEKRES_STEREO : Z := BIT 10.

Definition RDA5807_MASK_DEEMPHASIS : Z := BIT 11.

Definition RDA5807_SHIFT_VOLUME_DAC : Z := 0.
Definition RDA5807_MASK_VOLUME_DAC : Z :=
  Z.shiftl 0xF RDA5807_SHIFT_VOLUME_DAC.

Definition RDA5807_SHIFT_RSSI : Z := 9.
Definition RDA5807_MASK_RSSI : Z := Z.shiftl 0x7F RDA5807_SHIFT_RSSI.

Definition RDA5807_FREQ_MIN_KHZ : Z := 76000.
Definition RDA5807_FREQ_MAX_KHZ : Z := 108000.

(** ** The I2C bus and the chip behind it

    A message of an [i2c_transfer] is either a write of some bytes
    ([flags = 0]) or a read of [len] bytes ([flags = I2C_M_RD]). *)

Inductive i2c_msg : Type :=
| MsgWrite (addr : Z) (buf : list Z)
| MsgRead (addr : Z) (len : nat).

(** What the adapter does with one transfer: it fails with a negative errno
    before anything reaches the chip, or it completes at most [k] of the
    messages handed to it. *)
Inductive xfer_outcome : Type :=
| XferErr (e : positive)
| XferUpto (k : nat).

(** The client: its bus address, the chip in random-access mode (a file of
    16-bit registers and the index latched by the last write), the outcomes
    of the transfers to come (when the list is empty, transfers complete),
    and the transfers issued so far, oldest first. *)
Record i2c_client : Type := mk_client {
  addr : Z;
  chip_regs : Z -> Z;
  chip_ptr : Z;
  faults : list xfer_outcome;
  trace : list (list i2c_msg)
}.

Definition chip_reg16 (c : i2c_client) (r : rda5807_reg) : Z :=
  u16 (chip_regs c (reg_addr r)).

Definition reg_store (regs : Z -> Z) (r v : Z) : Z -> Z :=
  fun r' => if r' =? r then v else regs r'.

(** Modelled from the spec: the chip's side of the register bus
    ("address-then-data transaction protocol").  The first byte written
    latches the register index, two more bytes are stored big-endian in that
    register; a read returns the latched register, high byte first. *)
Definition chip_msg (m : i2c_msg) (st : (Z -> Z) * Z) : (Z -> Z) * Z * list Z :=
  let '(regs, ptr) := st in
  match m with
  | MsgWrite _ (r :: hi :: lo :: _) =>
      (reg_store regs r (u8 hi * 256 + u8 lo), r, [])
  | MsgWrite _ (r :: _) => (regs, r, [])
  | MsgWrite _ [] => (regs, ptr, [])
  | MsgRead _ len =>
      (regs, ptr, firstn len [u8 (Z.shiftr (regs ptr) 8); u8 (regs ptr)])
  end.

Fixpoint chip_msgs (ms : list i2c_msg) (st : (Z -> Z) * Z)
  : (Z -> Z) * Z * list Z :=
  match ms with
  | [] => (st, [])
  | m :: ms' =>
      let '(st1, rx1) := chip_msg m st in
      let '(st2, rx2) := chip_msgs ms' st1 in
      (st2, rx1 ++ rx2)
  end.

(** Modelled from the spec: [i2c_transfer] of the kernel's I2C core, which is
    not part of the driver file ("transfer(sequence of {direction, address,
    byte buffer}) -> count of completed transactions | error").  It returns
    the number of messages completed or a negative errno, together with the
    bytes received by the read messages, and records the transfer. *)
Definition i2c_transfer (msgs : list i2c_msg) (c : i2c_client)
  : Z * list Z * i2c_client :=
  let tr := trace c ++ [msgs] in
  match faults c with
  | XferErr e :: rest =>
      (Z.neg e, [], mk_client (addr c) (chip_regs c) (chip_ptr c) rest tr)
  | XferUpto k :: rest =>
      let done := firstn k msgs in
      let '(regs, ptr, rx) := chip_msgs done (chip_regs c, chip_ptr c) in
      (Z.of_nat (length done), rx, mk_client (addr c) regs ptr rest tr)
  | [] =>
      let '(regs, ptr, rx) := chip_msgs msgs (chip_regs c, chip_ptr c) in
      (Z.of_nat (length msgs), rx, mk_client (addr c) regs ptr [] tr)
  end.

(** ** A state monad over the client *)

Definition io (A : Type) : Type := i2c_client -> A * i2c_client.

Definition ret {A : Type} (a : A) : io A := fun c => (a, c).

Definition bind {A B : Type} (m : io A) (k : A -> io B) : io B :=
  fun c => let '(a, c') := m c in k a c'.

Notation "x <- m ;; k" := (bind m (fun x => k))
  (at level 61, m at next level, right associativity).

Definition ARRAY_SIZE {A : Type} (l : list A) : Z := Z.of_nat (length l).

Definition be16_to_cpu (val_buf : list Z) : Z :=
  match val_buf with
  | [hi; lo] => hi * 256 + lo
  | _ => 0
  end.

Section Driver.

Context {K : kernel_headers}.

(** ** Register accessors *)

Definition rda5807_i2c_read (reg : rda5807_reg) : io Z :=
  fun client =>
  let reg_buf := u8 (reg_addr reg) in
  let msgs := [ MsgWrite (addr client) [reg_buf]; MsgRead (addr client) 2 ] in
  let '(err, val_buf, client') := i2c_transfer msgs client in
  if err <? 0 then (err, client')
  else if err <? ARRAY_SIZE msgs then (- EIO, client')
  else (be16_to_cpu val_buf, client').

Definition rda5807_i2c_write (reg : rda5807_reg) (val : Z) : io Z :=
  fun client =>
  let val := u16 val in
  let buf := [ u8 (reg_addr reg); u8 (Z.shiftr val 8); u8 (Z.land val 0xFF) ] in
  let msgs := [ MsgWrite (addr client) buf ] in
  let '(err, _, client') := i2c_transfer msgs client in
  if err <? 0 then (err, client')
  else if err <? ARRAY_SIZE msgs then (- EIO, client')
  else (0, client').

(** ** Read-modify-write *)

Definition rda5807_update_reg (reg : rda5807_reg) (mask val : Z) : io Z :=
  let mask := u16 mask in
  let val := u16 val in
  err <- rda5807_i2c_read reg ;;
  if 0 <=? err then
    let val := u16 (Z.lor val (Z.land (u16 err) (Z.lnot mask))) in
    rda5807_i2c_write reg val
  else ret err.

(** ** Control encoders *)

(** C's [!x] on an [int]. *)
Definition c_not (x : Z) : Z := if x =? 0 then 1 else 0.

Definition rda5807_set_enable (enabled : Z) : io Z :=
  let val := if enabled =? 0 then 0 else RDA5807_MASK_CTRL_ENABLE in
  rda5807_update_reg RDA5807_REG_CTRL RDA5807_MASK_CTRL_ENABLE val.

Definition rda5807_set_mute (muted : Z) : io Z :=
  let val := if muted =? 0 then RDA5807_MASK_CTRL_DMUTE else 0 in
  rda5807_update_reg RDA5807_REG_CTRL RDA5807_MASK_CTRL_DMUTE val.

Definition rda5807_set_volume (volume : Z) : io Z :=
  rda5807_update_reg RDA5807_REG_INTM_THRESH_VOL RDA5807_MASK_VOLUME_DAC
    (Z.shiftl volume RDA5807_SHIFT_VOLUME_DAC).

Definition rda5807_set_preemphasis (preemp : Z) : io Z :=
  rda5807_update_reg RDA5807_REG_IOCFG RDA5807_MASK_DEEMPHASIS
    (if preemp =? V4L2_PREEMPHASIS_50_uS then RDA5807_MASK_DEEMPHASIS else 0).

(** The channel expression of [rda5807_set_frequency], in 32-bit unsigned
    arithmetic: [(freq_khz - RDA5807_FREQ_MIN_KHZ + 25) / 50]. *)
Definition wrchan_of_khz (freq_khz : Z) : Z :=
  u32 (u32 (freq_khz - RDA5807_FREQ_MIN_KHZ) + 25) / 50.

(** The mask and the value [rda5807_set_frequency] accumulates for its
    update of CHAN, statement by statement as the source has them; both
    start at 0. *)
Definition set_frequency_fields (freq_khz : Z) : Z * Z :=
  let mask := 0 in
  let val := 0 in
  (* select widest band *)
  let mask := u16 (Z.lor mask RDA5807_MASK_CHAN_BAND) in
  let val := u16 (Z.lor val (Z.shiftl 2 RDA5807_SHIFT_CHAN_BAND)) in
  (* select 50 kHz channel spacing *)
  let mask := u16 (Z.lor mask RDA5807_MASK_CHAN_SPACE) in
  let val := u16 (Z.lor val (Z.shiftl 2 RDA5807_SHIFT_CHAN_SPACE)) in
  (* select frequency *)
  let mask := u16 (Z.lor mask RDA5807_MASK_CHAN_WRCHAN) in
  let val :=
    u16 (Z.lor val
           (u32 (Z.shiftl (wrchan_of_khz freq_khz)
                   RDA5807_SHIFT_CHAN_WRCHAN))) in
  (* start tune operation *)
  let mask := u16 (Z.lor mask RDA5807_MASK_CHAN_TUNE) in
  let val := u16 (Z.lor val RDA5807_MASK_CHAN_TUNE) in
  (mask, val).

Definition rda5807_set_frequency (freq_khz : Z) : io Z :=
  let freq_khz := u32 freq_khz in
  if freq_khz <? RDA5807_FREQ_MIN_KHZ then ret (- ERANGE)
  else if freq_khz >? RDA5807_FREQ_MAX_KHZ then ret (- ERANGE)
  else
    let '(mask, val) := set_frequency_fields freq_khz in
    rda5807_update_reg RDA5807_REG_CHAN mask val.

(** ** Control dispatch *)

Record v4l2_ctrl : Type := mk_ctrl { id : Z; val : Z }.

Definition rda5807_s_ctrl (ctrl : v4l2_ctrl) : io Z :=
  if id ctrl =? V4L2_CID_AUDIO_MUTE then
    err1 <- rda5807_set_enable (c_not (val ctrl)) ;;
    err2 <- rda5807_set_mute (val ctrl) ;;
    ret (if err1 =? 0 then err2 else err1)
  else if id ctrl =? V4L2_CID_AUDIO_VOLUME then
    rda5807_set_volume (val ctrl)
  else if id ctrl =? V4L2_CID_TUNE_PREEMPHASIS then
    rda5807_set_preemphasis (val ctrl)
  else ret (- EINVAL).

(** ** Tuner ioctls *)

Record v4l2_audio : Type := mk_audio {
  au_index : Z;
  au_name : string;
  au_capability : Z;
  au_mode : Z
}.

Definition rda5807_vidioc_g_audio (a : v4l2_audio) : Z * v4l2_audio :=
  if negb (au_index a =? 0) then (- EINVAL, a)
  else (0, mk_audio 0 "Radio" V4L2_AUDCAP_STEREO 0).

Record v4l2_tuner : Type := mk_tuner {
  index : Z;
  name : string;
  type : Z;
  capability : Z;
  rangelow : Z;
  rangehigh : Z;
  rxsubchans : Z;
  audmode : Z;
  signal : Z;
  afc : Z
}.

(** The two decoding expressions of [rda5807_vidioc_g_tuner]: the
    sub-channel word computed from [seekres], and the [.signal] field
    computed from the word read from the SIGNAL register. *)
Definition tuner_rxsubchans (seekres : Z) : Z :=
  if Z.land seekres
       (Z.lor RDA5807_MASK_SEEKRES_COMPLETE RDA5807_MASK_SEEKRES_FAIL)
     =? RDA5807_MASK_SEEKRES_COMPLETE
  then
    (* mono/stereo known *)
    if negb (Z.land seekres RDA5807_MASK_SEEKRES_STEREO =? 0)
    then V4L2_TUNER_SUB_STEREO else V4L2_TUNER_SUB_MONO
  else
    (* mono/stereo unknown *)
    Z.lor V4L2_TUNER_SUB_MONO V4L2_TUNER_SUB_STEREO.

Definition tuner_signal (err : Z) : Z :=
  let signal :=
    u16 (Z.shiftr (Z.land (u16 err) RDA5807_MASK_RSSI) RDA5807_SHIFT_RSSI) in
  Z.shiftl signal (16 - 7).

Definition rda5807_vidioc_g_tuner (a : v4l2_tuner) : io (Z * v4l2_tuner) :=
  if negb (index a =? 0) then ret (- EINVAL, a)
  else
    err <- rda5807_i2c_read RDA5807_REG_SEEK_RESULT ;;
    if err <? 0 then ret (err, a)
    else
      let seekres := u16 err in
      let rxsubchans := tuner_rxsubchans seekres in
      err <- rda5807_i2c_read RDA5807_REG_SIGNAL ;;
      if err <? 0 then ret (err, a)
      else
        ret (0, mk_tuner 0 "FM" V4L2_TUNER_RADIO
                  (Z.lor V4L2_TUNER_CAP_LOW V4L2_TUNER_CAP_STEREO)
                  (RDA5807_FREQ_MIN_KHZ * 16)
                  (RDA5807_FREQ_MAX_KHZ * 16)
                  rxsubchans
                  V4L2_TUNER_MODE_STEREO
                  (tuner_signal err)
                  0).

Record v4l2_frequency : Type := mk_frequency {
  fr_tuner : Z;
  fr_type : Z;
  fr_frequency : Z
}.

Definition rda5807_vidioc_s_frequency (a : v4l2_frequency) : io Z :=
  if negb (fr_tuner a =? 0) then ret (- EINVAL)
  else if negb (fr_type a =? V4L2_TUNER_RADIO) then ret (- EINVAL)
  else rda5807_set_frequency (u32 (u32 (fr_frequency a) * 625) / 10000).

End Driver.

(** ** Probe, suspend and resume *)

(** Modelled from the spec: the host framework and the allocator, which are
    not part of the driver file ("registration of three named controls",
    "a query to fetch a control's current value").  The calls the driver
    makes into them are recorded; what they answer is given by the
    environment. *)
Inductive host_call : Type :=
| Kzalloc
| V4l2CtrlHandlerInit (nr_of_controls_hint : Z)
| V4l2CtrlNewStd (id min max step def : Z)
| V4l2CtrlNewStdMenu (id max mask def : Z)
| I2cSetClientdata
| VideoSetDrvdata
| VideoRegisterDevice (type nr : Z)
| V4l2CtrlHandlerSetup
| VideoUnregisterDevice
| V4l2CtrlHandlerFree
| VideoDeviceReleaseEmpty
| Kfree.

Record host_env : Type := mk_env {
  kzalloc_ok : bool;
  ctrl_handler_error : Z;
  video_register_device : Z;
  v4l2_ctrl_handler_setup : (v4l2_ctrl -> io Z) -> io Z
}.

(** The controls of a handler with their current values, by identifier. *)
Record v4l2_ctrl_handler : Type := mk_handler {
  cur_val : Z -> Z
}.

Definition v4l2_ctrl_find (hdl : v4l2_ctrl_handler) (id : Z)
  : v4l2_ctrl_handler * Z := (hdl, id).

Definition v4l2_ctrl_g_ctrl (ctrl : v4l2_ctrl_handler * Z) : Z :=
  cur_val (fst ctrl) (snd ctrl).

Section Lifecycle.

Context {K : kernel_headers}.

Definition err_ctrl_free : list host_call :=
  [ V4l2CtrlHandlerFree; VideoDeviceReleaseEmpty; Kfree ].

Definition err_video_unreg : list host_call :=
  VideoUnregisterDevice :: err_ctrl_free.

Definition rda5807_i2c_probe (env : host_env) : io (Z * list host_call) :=
  chipid <- rda5807_i2c_read RDA5807_REG_CHIPID ;;
  if chipid <? 0 then ret (chipid, [])
  else if negb (Z.land chipid 0xFF00 =? 0x5800) then ret (- ENODEV, [])
  else if negb (kzalloc_ok env) then ret (- ENOMEM, [ Kzalloc ])
  else
    (* Initialize controls. *)
    let calls :=
      [ Kzalloc;
        V4l2CtrlHandlerInit 3;
        V4l2CtrlNewStd V4L2_CID_AUDIO_MUTE 0 1 1 1;
        V4l2CtrlNewStd V4L2_CID_AUDIO_VOLUME 0 15 1 8;
        V4l2CtrlNewStdMenu V4L2_CID_TUNE_PREEMPHASIS V4L2_PREEMPHASIS_75_uS
          (BIT V4L2_PREEMPHASIS_DISABLED) V4L2_PREEMPHASIS_50_uS ] in
    let err := ctrl_handler_error env in
    if negb (err =? 0) then ret (err, calls ++ err_ctrl_free)
    else
      let calls :=
        calls ++ [ I2cSetClientdata; VideoSetDrvdata;
                   VideoRegisterDevice VFL_TYPE_RADIO (-1) ] in
      let err := video_register_device env in
      if err <? 0 then ret (err, calls ++ err_ctrl_free)
      else
        err <- v4l2_ctrl_handler_setup env rda5807_s_ctrl ;;
        let calls := calls ++ [ V4l2CtrlHandlerSetup ] in
        if err <? 0 then ret (err, calls ++ err_video_unreg)
        else ret (0, calls).

Definition rda5807_i2c_remove : Z * list host_call :=
  (0, [ VideoUnregisterDevice; V4l2CtrlHandlerFree;
        VideoDeviceReleaseEmpty; Kfree ]).

Definition rda5807_suspend : io Z := rda5807_set_enable 0.

Definition rda5807_resume (ctrl_handler : v4l2_ctrl_handler) : io Z :=
  let mute_ctrl := v4l2_ctrl_find ctrl_handler V4L2_CID_AUDIO_MUTE in
  let mute_val := v4l2_ctrl_g_ctrl mute_ctrl in
  let enabled := c_not mute_val in
  if negb (enabled =? 0) then rda5807_set_enable enabled
  else ret 0.

End Lifecycle.

(** ** Vocabulary of the statements *)

(** Whether the next transfer completes all [n] of its messages. *)
Definition completes (n : nat) (f : list xfer_outcome) : bool :=
  match f with
  | [] => true
  | XferErr _ :: _ => false
  | XferUpto k :: _ => (n <=? k)%nat
  end.

Definition read_xfer (c : i2c_client) (reg : rda5807_reg) : list i2c_msg :=
  [ MsgWrite (addr c) [reg_addr reg]; MsgRead (addr c) 2 ].

Definition write_xfer (c : i2c_client) (reg : rda5807_reg) (v : Z)
  : list i2c_msg :=
  [ MsgWrite (addr c) [reg_addr reg; u8 (Z.shiftr v 8); u8 (Z.land v 0xFF)] ].

(** The word [rda5807_update_reg] hands to the write, from the arguments it
    was called with and the word it has read. *)
Definition rmw_word (mask val current : Z) : Z :=
  u16 (Z.lor (u16 val) (Z.land (u16 current) (Z.lnot (u16 mask)))).

(** A client at bus address 0x11 whose registers all hold [v], with no bus
    fault scheduled and nothing transferred yet. *)
Definition quiet_client (v : Z) : i2c_client :=
  mk_client 0x11 (fun _ => v) 0 [] [].

(** The mask and the word [rda5807_set_frequency] builds for channel index
    [idx], field by field in the order of the source. *)
Definition chan_mask : Z :=
  Z.lor (Z.lor (Z.lor RDA5807_MASK_CHAN_BAND RDA5807_MASK_CHAN_SPACE)
           RDA5807_MASK_CHAN_WRCHAN)
    RDA5807_MASK_CHAN_TUNE.

Definition chan_word (idx : Z) : Z :=
  Z.lor (Z.lor (Z.lor (Z.shiftl 2 RDA5807_SHIFT_CHAN_BAND)
                  (Z.shiftl 2 RDA5807_SHIFT_CHAN_SPACE))
           (Z.shiftl idx RDA5807_SHIFT_CHAN_WRCHAN))
    RDA5807_MASK_CHAN_TUNE.

(** Whether a word has a bit of mask [m] set. *)
Definition bit_set (w m : Z) : bool := negb (Z.land w m =? 0).

(** A tuner structure as a caller hands it in, and a host in which every
    call succeeds. *)
Definition blank_tuner : v4l2_tuner := mk_tuner 0 "" 0 0 0 0 0 0 0 0.

Definition willing_host : host_env := mk_env true 0 0 (fun _ => ret 0).

(** Clients and hosts on which the further properties are exercised: a bus
    whose next transfer fails with errno 5, a chip of the family, a host
    that cannot allocate and one whose control setup fails. *)
Definition faulty_client (v : Z) : i2c_client :=
  mk_client 0x11 (fun _ => v) 0 [ XferErr 5 ] [].

Definition family_client : i2c_client := quiet_client 0x5804.

Definition starved_host : host_env := mk_env false 0 0 (fun _ => ret 0).

Definition setup_failing_host : host_env :=
  mk_env true 0 0 (fun _ => ret (-5)).

(** * Properties *)

(** ** Arithmetic of the fixed-width conversions *)

Lemma u16_range (x : Z) : 0 <= u16 x < 2 ^ 16.
Proof. unfold u16. apply Z.mod_pos_bound. lia. Qed.

Lemma u16_small (x : Z) : 0 <= x < 2 ^ 16 -> u16 x = x.
Proof. intros H. unfold u16. apply Z.mod_small. exact H. Qed.

Lemma u16_idem (x : Z) : u16 (u16 x) = u16 x.
Proof. apply u16_small, u16_range. Qed.

Lemma u32_small (x : Z) : 0 <= x < 2 ^ 32 -> u32 x = x.
Proof. intros H. unfold u32. apply Z.mod_small. exact H. Qed.

Lemma be16_bytes (v : Z) : u8 (Z.shiftr v 8) * 256 + u8 v = u16 v.
Proof.
  unfold u8, u16. rewrite Z.shiftr_div_pow2 by lia.
  change (2 ^ 8) with 256. change (2 ^ 16) with 65536.
  Z.div_mod_to_equations. lia.
Qed.

Lemma be16_split (v : Z) :
  u8 (u8 (Z.shiftr (u16 v) 8)) * 256 + u8 (u8 (Z.land (u16 v) 0xFF)) = u16 v.
Proof.
  change 0xFF with (Z.ones 8). rewrite Z.land_ones by lia.
  fold (u8 (u16 v)).
  assert (I : forall y, u8 (u8 y) = u8 y).
  { intros y. unfold u8. apply Z.mod_mod. lia. }
  rewrite !I, be16_bytes. apply u16_idem.
Qed.

Lemma reg_addr_u8 (r : rda5807_reg) : u8 (reg_addr r) = reg_addr r.
Proof. destruct r; reflexivity. Qed.

Lemma reg_addr_inj (r r' : rda5807_reg) : reg_addr r = reg_addr r' -> r = r'.
Proof.
  destruct r, r'; simpl; intros E; first [reflexivity | discriminate E].
Qed.

(** ** The register accessors *)

(** Run a transfer on the chip, leaving the arithmetic on words alone. *)
Ltac run_xfer := cbn -[Z.shiftr Z.land Z.mul Z.add Z.opp].

Section AccessorFacts.

Context {K : kernel_headers}.

Lemma i2c_read_ok (reg : rda5807_reg) (c : i2c_client) :
  completes 2 (faults c) = true ->
  rda5807_i2c_read reg c =
    (chip_reg16 c reg,
     mk_client (addr c) (chip_regs c) (reg_addr reg) (tl (faults c))
       (trace c ++ [read_xfer c reg])).
Proof.
  intros F. unfold rda5807_i2c_read, i2c_transfer, read_xfer, chip_reg16.
  rewrite reg_addr_u8.
  destruct (faults c) as [|[e|k] rest]; cbn [completes] in F;
    try discriminate F.
  - run_xfer. rewrite be16_bytes. reflexivity.
  - apply Nat.leb_le in F. rewrite firstn_all2 by exact F.
    run_xfer. rewrite be16_bytes. reflexivity.
Qed.

Lemma i2c_read_fail (reg : rda5807_reg) (c : i2c_client) :
  completes 2 (faults c) = false ->
  exists e ptr,
    e < 0 /\
    rda5807_i2c_read reg c =
      (e, mk_client (addr c) (chip_regs c) ptr (tl (faults c))
            (trace c ++ [read_xfer c reg])).
Proof.
  intros F. unfold rda5807_i2c_read, i2c_transfer, read_xfer.
  rewrite reg_addr_u8. pose proof EIO_pos as P.
  destruct (faults c) as [|[e|k] rest]; cbn [completes] in F;
    try discriminate F.
  - exists (Z.neg e), (chip_ptr c). run_xfer. split; [lia | reflexivity].
  - destruct k as [|[|k]]; cbn in F; try discriminate F.
    + exists (- EIO), (chip_ptr c). run_xfer. split; [lia | reflexivity].
    + exists (- EIO), (reg_addr reg). run_xfer. split; [lia | reflexivity].
Qed.

Lemma i2c_write_ok (reg : rda5807_reg) (v : Z) (c : i2c_client) :
  completes 1 (faults c) = true ->
  rda5807_i2c_write reg v c =
    (0,
     mk_client (addr c) (reg_store (chip_regs c) (reg_addr reg) (u16 v))
       (reg_addr reg) (tl (faults c))
       (trace c ++ [write_xfer c reg (u16 v)])).
Proof.
  intros F. unfold rda5807_i2c_write, i2c_transfer, write_xfer.
  rewrite reg_addr_u8.
  destruct (faults c) as [|[e|k] rest]; cbn [completes] in F;
    try discriminate F.
  - run_xfer. rewrite be16_split. reflexivity.
  - apply Nat.leb_le in F. rewrite firstn_all2 by exact F.
    run_xfer. rewrite be16_split. reflexivity.
Qed.

Lemma i2c_write_fail (reg : rda5807_reg) (v : Z) (c : i2c_client) :
  completes 1 (faults c) = false ->
  exists e,
    e < 0 /\
    rda5807_i2c_write reg v c =
      (e, mk_client (addr c) (chip_regs c) (chip_ptr c) (tl (faults c))
            (trace c ++ [write_xfer c reg (u16 v)])).
Proof.
  intros F. unfold rda5807_i2c_write, i2c_transfer, write_xfer.
  rewrite reg_addr_u8. pose proof EIO_pos as P.
  destruct (faults c) as [|[e|k] rest]; cbn [completes] in F;
    try discriminate F.
  - exists (Z.neg e). run_xfer. split; [lia | reflexivity].
  - destruct k as [|k]; cbn in F; try discriminate F.
    exists (- EIO). run_xfer. split; [lia | reflexivity].
Qed.

End AccessorFacts.

(** ** Read-modify-write *)

Lemma u16_testbit (x i : Z) :
  Z.testbit (u16 x) i = (i <? 16) && Z.testbit x i.
Proof. unfold u16. apply Z.testbit_mod_pow2. lia. Qed.

Lemma rmw_word_testbit (mask val current i : Z) :
  0 <= i ->
  Z.testbit (rmw_word mask val current) i =
    (i <? 16) &&
    (Z.testbit val i || Z.testbit current i && negb (Z.testbit mask i)).
Proof.
  intros Hi. unfold rmw_word.
  rewrite u16_testbit, Z.lor_spec, Z.land_spec, Z.lnot_spec by exact Hi.
  rewrite !u16_testbit.
  destruct (i <? 16), (Z.testbit val i), (Z.testbit current i),
    (Z.testbit mask i); reflexivity.
Qed.

Lemma rmw_word_u16 (mask val current : Z) :
  u16 (rmw_word mask val current) = rmw_word mask val current.
Proof. apply u16_idem. Qed.

Lemma small_testbit (x i : Z) :
  0 <= x < 2 ^ 16 -> Z.testbit x i = (i <? 16) && Z.testbit x i.
Proof. intros H. rewrite <- u16_testbit, u16_small by exact H. reflexivity. Qed.

Lemma rmw_word_general (mask val current : Z) :
  0 <= mask < 2 ^ 16 -> 0 <= val < 2 ^ 16 -> 0 <= current < 2 ^ 16 ->
  rmw_word mask val current = Z.lor val (Z.land current (Z.lnot mask)).
Proof.
  intros Hm Hv Hc. apply Z.bits_inj'. intros i Hi.
  rewrite rmw_word_testbit, Z.lor_spec, Z.land_spec, Z.lnot_spec by exact Hi.
  rewrite (small_testbit val i Hv), (small_testbit current i Hc).
  destruct (i <? 16), (Z.testbit val i), (Z.testbit current i),
    (Z.testbit mask i); reflexivity.
Qed.

Lemma rmw_word_masked (mask val current : Z) :
  0 <= mask < 2 ^ 16 -> 0 <= val < 2 ^ 16 -> 0 <= current < 2 ^ 16 ->
  Z.land val (Z.lnot mask) = 0 ->
  rmw_word mask val current =
    Z.lor (Z.land val mask) (Z.land current (Z.lnot mask)).
Proof.
  intros Hm Hv Hc Hin. apply Z.bits_inj'. intros i Hi.
  assert (B : Z.testbit val i && negb (Z.testbit mask i) = false).
  { rewrite <- (Z.lnot_spec mask i Hi), <- Z.land_spec, Hin.
    apply Z.bits_0. }
  rewrite rmw_word_testbit, Z.lor_spec, !Z.land_spec, Z.lnot_spec by exact Hi.
  rewrite (small_testbit val i Hv), (small_testbit current i Hc).
  destruct (i <? 16), (Z.testbit val i), (Z.testbit current i),
    (Z.testbit mask i); first [reflexivity | discriminate B].
Qed.

Section UpdateFacts.

Context {K : kernel_headers}.

Lemma update_reg_unfold (reg : rda5807_reg) (mask val : Z) (c : i2c_client) :
  rda5807_update_reg reg mask val c =
    let '(err, c1) := rda5807_i2c_read reg c in
    if 0 <=? err then rda5807_i2c_write reg (rmw_word mask val err) c1
    else (err, c1).
Proof.
  unfold rda5807_update_reg, bind, ret, rmw_word.
  destruct (rda5807_i2c_read reg c) as [err c1].
  destruct (0 <=? err); reflexivity.
Qed.

Lemma chip_reg16_nonneg (c : i2c_client) (reg : rda5807_reg) :
  (0 <=? chip_reg16 c reg) = true.
Proof. apply Z.leb_le. apply u16_range. Qed.

Lemma update_reg_ok (reg : rda5807_reg) (mask val : Z) (c : i2c_client) :
  completes 2 (faults c) = true ->
  completes 1 (tl (faults c)) = true ->
  rda5807_update_reg reg mask val c =
    (0,
     mk_client (addr c)
       (reg_store (chip_regs c) (reg_addr reg)
          (rmw_word mask val (chip_reg16 c reg)))
       (reg_addr reg) (tl (tl (faults c)))
       (trace c ++ [ read_xfer c reg;
                     write_xfer c reg (rmw_word mask val (chip_reg16 c reg)) ])).
Proof.
  intros F1 F2. rewrite update_reg_unfold, (i2c_read_ok reg c F1).
  rewrite chip_reg16_nonneg, i2c_write_ok by exact F2.
  unfold write_xfer. cbn [addr chip_regs faults trace].
  rewrite <- app_assoc, !rmw_word_u16. reflexivity.
Qed.

Lemma update_reg_read_fails (reg : rda5807_reg) (mask val : Z)
    (c : i2c_client) :
  completes 2 (faults c) = false ->
  exists e ptr,
    e < 0 /\
    rda5807_update_reg reg mask val c =
      (e, mk_client (addr c) (chip_regs c) ptr (tl (faults c))
            (trace c ++ [read_xfer c reg])).
Proof.
  intros F. destruct (i2c_read_fail reg c F) as (e & ptr & Hneg & E).
  exists e, ptr. split; [exact Hneg|].
  rewrite update_reg_unfold, E.
  replace (0 <=? e) with false by (symmetry; apply Z.leb_gt; exact Hneg).
  reflexivity.
Qed.

Lemma update_reg_write_fails (reg : rda5807_reg) (mask val : Z)
    (c : i2c_client) :
  completes 2 (faults c) = true ->
  completes 1 (tl (faults c)) = false ->
  exists e,
    e < 0 /\
    rda5807_update_reg reg mask val c =
      (e, mk_client (addr c) (chip_regs c) (reg_addr reg)
            (tl (tl (faults c)))
            (trace c ++ [ read_xfer c reg;
                          write_xfer c reg
                            (rmw_word mask val (chip_reg16 c reg)) ])).
Proof.
  intros F1 F2. rewrite update_reg_unfold, (i2c_read_ok reg c F1).
  rewrite chip_reg16_nonneg.
  match goal with
  | |- context [rda5807_i2c_write reg ?v ?c1] =>
      destruct (i2c_write_fail reg v c1 F2) as (e & Hneg & E)
  end.
  exists e. split; [exact Hneg|]. rewrite E.
  unfold write_xfer. cbn [addr chip_regs chip_ptr faults trace].
  rewrite <- app_assoc, !rmw_word_u16. reflexivity.
Qed.

(** A zero return means that both transfers went through. *)
Lemma update_reg_success (reg : rda5807_reg) (mask val : Z) (c : i2c_client) :
  fst (rda5807_update_reg reg mask val c) = 0 ->
  completes 2 (faults c) = true /\ completes 1 (tl (faults c)) = true.
Proof.
  intros R. destruct (completes 2 (faults c)) eqn:F1.
  - destruct (completes 1 (tl (faults c))) eqn:F2; [auto|].
    destruct (update_reg_write_fails reg mask val c F1 F2) as (e & Hneg & E).
    rewrite E in R. simpl in R. lia.
  - destruct (update_reg_read_fails reg mask val c F1) as (e & p & Hneg & E).
    rewrite E in R. simpl in R. lia.
Qed.

Lemma reg_store_same (regs : Z -> Z) (r v : Z) : reg_store regs r v r = v.
Proof. unfold reg_store. rewrite Z.eqb_refl. reflexivity. Qed.

Lemma reg_store_other (regs : Z -> Z) (r r' v : Z) :
  r' <> r -> reg_store regs r v r' = regs r'.
Proof.
  intros N. unfold reg_store. destruct (r' =? r) eqn:E; [|reflexivity].
  apply Z.eqb_eq in E. contradiction.
Qed.

End UpdateFacts.

(** ** Claims on the read-modify-write primitive *)

Section UpdateClaims.

Context {K : kernel_headers}.

(** C1 (as amended).  For every register and every 16-bit mask and value
    with no bit of the value outside the mask, an update that returns 0 has
    issued exactly one read and one write of that register, the write carrying
    [(value & mask) | (current & ~mask)] where [current] is the word just
    read; afterwards the register holds that word, each of its bits outside
    the mask is the bit that was there before, and no other register has
    changed. *)
Theorem update_reg_keeps_bits_outside_mask
    (reg : rda5807_reg) (mask val : Z) (c : i2c_client) :
  0 <= mask < 2 ^ 16 ->
  0 <= val < 2 ^ 16 ->
  Z.land val (Z.lnot mask) = 0 ->
  fst (rda5807_update_reg reg mask val c) = 0 ->
  let c' := snd (rda5807_update_reg reg mask val c) in
  let current := chip_reg16 c reg in
  let merged := Z.lor (Z.land val mask) (Z.land current (Z.lnot mask)) in
  trace c' = trace c ++ [ read_xfer c reg; write_xfer c reg merged ] /\
  chip_reg16 c' reg = merged /\
  (forall i, 0 <= i -> Z.testbit mask i = false ->
     Z.testbit (chip_reg16 c' reg) i = Z.testbit current i) /\
  (forall r, r <> reg -> chip_reg16 c' r = chip_reg16 c r).
Proof.
  intros Hm Hv Hin R c' current merged.
  destruct (update_reg_success reg mask val c R) as [F1 F2].
  pose proof (update_reg_ok reg mask val c F1 F2) as E.
  assert (W : rmw_word mask val current = merged).
  { apply rmw_word_masked; try assumption. apply u16_range. }
  fold current in E. rewrite W in E.
  subst c'. rewrite E. cbn [snd trace].
  assert (M : chip_reg16
                (mk_client (addr c)
                   (reg_store (chip_regs c) (reg_addr reg) merged)
                   (reg_addr reg) (tl (tl (faults c)))
                   (trace c ++ [read_xfer c reg; write_xfer c reg merged]))
                reg = merged).
  { unfold chip_reg16 at 1. cbn [chip_regs]. rewrite reg_store_same.
    rewrite <- W. apply rmw_word_u16. }
  split; [reflexivity|]. split; [exact M|]. split.
  - intros i Hi Hbit. rewrite M. subst merged.
    rewrite Z.lor_spec, !Z.land_spec, Z.lnot_spec, Hbit by exact Hi.
    rewrite andb_false_r, andb_true_r. reflexivity.
  - intros r Hr. unfold chip_reg16. cbn [chip_regs].
    rewrite reg_store_other; [reflexivity|].
    intros A. apply Hr, reg_addr_inj, A.
Qed.

End UpdateClaims.

Lemma update_reg_keeps_bits_outside_mask_witness :
  let c := quiet_client 0xA5A5 in
  let r :=
    rda5807_update_reg (K := linux_3_4) RDA5807_REG_CTRL 0x4000 0x4000 c in
  (0 <= 0x4000 < 2 ^ 16 /\ Z.land 0x4000 (Z.lnot 0x4000) = 0 /\ fst r = 0) /\
  trace (snd r) =
    trace c ++ [ read_xfer c RDA5807_REG_CTRL;
                 write_xfer c RDA5807_REG_CTRL 0xE5A5 ] /\
  chip_reg16 (snd r) RDA5807_REG_CTRL = 0xE5A5 /\
  (forall i, 0 <= i -> Z.testbit 0x4000 i = false ->
     Z.testbit (chip_reg16 (snd r) RDA5807_REG_CTRL) i
       = Z.testbit (chip_reg16 c RDA5807_REG_CTRL) i) /\
  (forall r', r' <> RDA5807_REG_CTRL ->
     chip_reg16 (snd r) r' = chip_reg16 c r').
Proof.
  intros c r. split.
  - split; [lia|]. split; reflexivity.
  - apply (update_reg_keeps_bits_outside_mask (K := linux_3_4)
             RDA5807_REG_CTRL 0x4000 0x4000 c);
      [lia | lia | reflexivity | reflexivity].
Defined.

(** C1 as stated fails when the value has a bit outside the mask: with mask
    0x000F and value 0x0010 on a register holding 0, the update returns 0
    and writes 0x0010 where [(value & mask) | (current & ~mask)] is 0; bit 4,
    which lies outside the mask, was clear before the call and is set after
    it. *)
Lemma update_reg_value_outside_mask_leaks :
  let c := quiet_client 0 in
  let r := rda5807_update_reg (K := linux_3_4) RDA5807_REG_INTM_THRESH_VOL
             0x000F 0x0010 c in
  fst r = 0 /\
  chip_reg16 (snd r) RDA5807_REG_INTM_THRESH_VOL = 0x0010 /\
  chip_reg16 (snd r) RDA5807_REG_INTM_THRESH_VOL
    <> Z.lor (Z.land 0x0010 0x000F)
         (Z.land (chip_reg16 c RDA5807_REG_INTM_THRESH_VOL) (Z.lnot 0x000F)) /\
  Z.testbit 0x000F 4 = false /\
  Z.testbit (chip_reg16 (snd r) RDA5807_REG_INTM_THRESH_VOL) 4
    <> Z.testbit (chip_reg16 c RDA5807_REG_INTM_THRESH_VOL) 4.
Proof.
  vm_compute. repeat split; discriminate.
Qed.

(** ** Bit-level reasoning *)

Lemma testbit_shiftl (a n i : Z) :
  0 <= n -> 0 <= i ->
  Z.testbit (Z.shiftl a n) i = (n <=? i) && Z.testbit a (i - n).
Proof.
  intros Hn Hi. destruct (Z.leb_spec n i).
  - rewrite Z.shiftl_spec by lia. reflexivity.
  - rewrite Z.shiftl_spec_low by lia. reflexivity.
Qed.

Lemma testbit_bounded (w x i : Z) :
  0 <= w -> 0 <= x < 2 ^ w -> Z.testbit x i = (i <? w) && Z.testbit x i.
Proof.
  intros Hw Hx. rewrite <- Z.testbit_mod_pow2 by exact Hw.
  rewrite Z.mod_small by exact Hx. reflexivity.
Qed.

Lemma testbit_BIT (n i : Z) : 0 <= n -> Z.testbit (BIT n) i = (n =? i).
Proof.
  intros Hn. unfold BIT. rewrite Z.shiftl_1_l. apply Z.pow2_bits_eqb, Hn.
Qed.

Lemma testbit_2 (i : Z) : Z.testbit 2 i = (1 =? i).
Proof. apply (Z.pow2_bits_eqb 1). lia. Qed.

Lemma testbit_0x3 (i : Z) : Z.testbit 0x3 i = (0 <=? i) && (i <? 2).
Proof. apply (Z.testbit_ones 2). lia. Qed.

Lemma testbit_0x7F (i : Z) : Z.testbit 0x7F i = (0 <=? i) && (i <? 7).
Proof. apply (Z.testbit_ones 7). lia. Qed.

Lemma testbit_0x3FF (i : Z) : Z.testbit 0x3FF i = (0 <=? i) && (i <? 10).
Proof. apply (Z.testbit_ones 10). lia. Qed.

Ltac push_testbit :=
  repeat first
    [ rewrite Z.lor_spec
    | rewrite Z.land_spec
    | rewrite Z.lnot_spec by lia
    | rewrite Z.shiftr_spec by lia
    | rewrite testbit_shiftl by lia
    | rewrite testbit_BIT by lia
    | rewrite testbit_2
    | rewrite testbit_0x3
    | rewrite testbit_0x7F
    | rewrite testbit_0x3FF
    | rewrite u16_testbit
    | rewrite Z.bits_0 ].

Ltac split_cmp :=
  repeat match goal with
    | |- context [?a <=? ?b] => destruct (Z.leb_spec a b)
    | |- context [?a <? ?b] => destruct (Z.ltb_spec a b)
    | |- context [?a =? ?b] => destruct (Z.eqb_spec a b)
    end;
  try lia; cbn [andb orb negb];
  rewrite ?andb_true_r, ?andb_false_r, ?orb_true_r, ?orb_false_r;
  try reflexivity.

(** ** The frequency encoder *)

Lemma chan_word_field (idx : Z) :
  0 <= idx < 2 ^ 10 ->
  Z.shiftr (Z.land (chan_word idx) RDA5807_MASK_CHAN_WRCHAN)
    RDA5807_SHIFT_CHAN_WRCHAN = idx.
Proof.
  intros H. apply Z.bits_inj'. intros i Hi.
  unfold chan_word, RDA5807_MASK_CHAN_WRCHAN, RDA5807_MASK_CHAN_TUNE,
    RDA5807_SHIFT_CHAN_WRCHAN, RDA5807_SHIFT_CHAN_BAND,
    RDA5807_SHIFT_CHAN_SPACE.
  push_testbit. replace (i + 6 - 6) with i by lia.
  rewrite (testbit_bounded 10 idx i) by lia.
  split_cmp.
Qed.

Lemma wrchan_in_field (idx : Z) :
  0 <= idx < 2 ^ 10 ->
  Z.land (Z.shiftl idx RDA5807_SHIFT_CHAN_WRCHAN)
    (Z.lnot RDA5807_MASK_CHAN_WRCHAN) = 0.
Proof.
  intros H. apply Z.bits_inj'. intros i Hi.
  unfold RDA5807_MASK_CHAN_WRCHAN, RDA5807_SHIFT_CHAN_WRCHAN.
  push_testbit. rewrite (testbit_bounded 10 idx (i - 6)) by lia.
  split_cmp.
Qed.

Lemma chan_word_in_mask (idx : Z) :
  0 <= idx < 2 ^ 10 ->
  Z.land (chan_word idx) (Z.lnot chan_mask) = 0.
Proof.
  intros H. apply Z.bits_inj'. intros i Hi.
  unfold chan_word, chan_mask, RDA5807_MASK_CHAN_WRCHAN,
    RDA5807_MASK_CHAN_TUNE, RDA5807_MASK_CHAN_BAND, RDA5807_MASK_CHAN_SPACE,
    RDA5807_SHIFT_CHAN_WRCHAN, RDA5807_SHIFT_CHAN_BAND,
    RDA5807_SHIFT_CHAN_SPACE.
  push_testbit. rewrite (testbit_bounded 10 idx (i - 6)) by lia.
  split_cmp.
Qed.

Lemma chan_word_u16 (idx : Z) :
  0 <= idx < 2 ^ 10 -> u16 (chan_word idx) = chan_word idx.
Proof.
  intros H. apply Z.bits_inj'. intros i Hi.
  unfold chan_word, RDA5807_MASK_CHAN_TUNE, RDA5807_SHIFT_CHAN_WRCHAN,
    RDA5807_SHIFT_CHAN_BAND, RDA5807_SHIFT_CHAN_SPACE.
  push_testbit. rewrite (testbit_bounded 10 idx (i - 6)) by lia.
  split_cmp.
Qed.

Lemma wrchan_of_khz_in_band (f : Z) :
  RDA5807_FREQ_MIN_KHZ <= f <= RDA5807_FREQ_MAX_KHZ ->
  wrchan_of_khz f = (f - 76000 + 25) / 50 /\ 0 <= wrchan_of_khz f <= 640.
Proof.
  unfold RDA5807_FREQ_MIN_KHZ, RDA5807_FREQ_MAX_KHZ. intros H.
  assert (E : wrchan_of_khz f = (f - 76000 + 25) / 50).
  { unfold wrchan_of_khz, RDA5807_FREQ_MIN_KHZ.
    rewrite (u32_small (f - 76000)) by lia.
    rewrite u32_small by lia. reflexivity. }
  rewrite E. split; [reflexivity|].
  split.
  - apply Z.div_pos; lia.
  - apply Z.lt_succ_r, Z.div_lt_upper_bound; lia.
Qed.

Lemma chan_index_rounds_to_nearest (f : Z) :
  Z.abs ((f - 76000 + 25) / 50 * 50 + 76000 - f) <= 25.
Proof.
  pose proof (Z.div_mod (f - 76000 + 25) 50 ltac:(lia)) as D.
  pose proof (Z.mod_pos_bound (f - 76000 + 25) 50 ltac:(lia)) as B.
  lia.
Qed.

Section FrequencyFacts.

Context {K : kernel_headers}.

Lemma set_frequency_fields_in_band (f : Z) :
  RDA5807_FREQ_MIN_KHZ <= f <= RDA5807_FREQ_MAX_KHZ ->
  set_frequency_fields f = (chan_mask, chan_word (wrchan_of_khz f)).
Proof.
  intros H. destruct (wrchan_of_khz_in_band f H) as [_ B].
  unfold set_frequency_fields.
  set (idx := wrchan_of_khz f) in *.
  assert (S : u32 (Z.shiftl idx RDA5807_SHIFT_CHAN_WRCHAN)
              = Z.shiftl idx RDA5807_SHIFT_CHAN_WRCHAN).
  { apply u32_small. unfold RDA5807_SHIFT_CHAN_WRCHAN.
    rewrite Z.shiftl_mul_pow2 by lia. lia. }
  rewrite S. f_equal.
  apply Z.bits_inj'. intros i Hi.
  unfold chan_word, RDA5807_MASK_CHAN_TUNE, RDA5807_SHIFT_CHAN_WRCHAN,
    RDA5807_SHIFT_CHAN_BAND, RDA5807_SHIFT_CHAN_SPACE.
  push_testbit. rewrite (testbit_bounded 10 idx (i - 6)) by lia.
  split_cmp.
Qed.

Lemma set_frequency_passes_fields (f : Z) (c : i2c_client) :
  RDA5807_FREQ_MIN_KHZ <= f <= RDA5807_FREQ_MAX_KHZ ->
  rda5807_set_frequency f c =
    rda5807_update_reg RDA5807_REG_CHAN
      (fst (set_frequency_fields f)) (snd (set_frequency_fields f)) c.
Proof.
  intros H. unfold RDA5807_FREQ_MIN_KHZ, RDA5807_FREQ_MAX_KHZ in H.
  unfold rda5807_set_frequency.
  rewrite (u32_small f) by lia.
  replace (f <? RDA5807_FREQ_MIN_KHZ) with false
    by (symmetry; apply Z.ltb_ge; unfold RDA5807_FREQ_MIN_KHZ; lia).
  replace (f >? RDA5807_FREQ_MAX_KHZ) with false
    by (symmetry; rewrite Z.gtb_ltb; apply Z.ltb_ge;
        unfold RDA5807_FREQ_MAX_KHZ; lia).
  destruct (set_frequency_fields f) as [mask val]. reflexivity.
Qed.

Lemma set_frequency_in_band (f : Z) (c : i2c_client) :
  RDA5807_FREQ_MIN_KHZ <= f <= RDA5807_FREQ_MAX_KHZ ->
  rda5807_set_frequency f c =
    rda5807_update_reg RDA5807_REG_CHAN chan_mask
      (chan_word (wrchan_of_khz f)) c.
Proof.
  intros H. rewrite (set_frequency_passes_fields f c H).
  rewrite (set_frequency_fields_in_band f H). reflexivity.
Qed.

Lemma set_frequency_rejects (f : Z) (c : i2c_client) :
  0 <= f < 2 ^ 32 ->
  f < RDA5807_FREQ_MIN_KHZ \/ RDA5807_FREQ_MAX_KHZ < f ->
  rda5807_set_frequency f c = (- ERANGE, c).
Proof.
  intros R H. unfold rda5807_set_frequency. rewrite (u32_small f R).
  destruct (Z.ltb_spec f RDA5807_FREQ_MIN_KHZ) as [L|L]; [reflexivity|].
  rewrite Z.gtb_ltb.
  destruct (Z.ltb_spec RDA5807_FREQ_MAX_KHZ f) as [G|G]; [reflexivity|].
  lia.
Qed.

(** The ioctl converts 1/16 kHz units to kHz and inherits the range check. *)
Lemma s_frequency_out_of_band (a : v4l2_frequency) (c : i2c_client) :
  fr_tuner a = 0 ->
  fr_type a = V4L2_TUNER_RADIO ->
  let khz := u32 (u32 (fr_frequency a) * 625) / 10000 in
  khz < RDA5807_FREQ_MIN_KHZ \/ RDA5807_FREQ_MAX_KHZ < khz ->
  rda5807_vidioc_s_frequency a c = (- ERANGE, c).
Proof.
  intros T Ty khz H. unfold rda5807_vidioc_s_frequency.
  rewrite T, Ty, !Z.eqb_refl. cbn [negb]. fold khz.
  apply set_frequency_rejects; [|exact H].
  subst khz. unfold u32.
  pose proof (Z.mod_pos_bound (fr_frequency a mod 2 ^ 32 * 625) (2 ^ 32)
                ltac:(lia)) as B.
  split.
  - apply Z.div_pos; lia.
  - apply Z.div_lt_upper_bound; lia.
Qed.

(** C2.  For every frequency of the band [76000, 108000] kHz the frequency
    encoder hands the update primitive a word whose WRCHAN field is
    [(f - 76000 + 25) / 50], and decoding that index ([index * 50 + 76000])
    gives a frequency within 25 kHz of [f]; for 76000, 76001, 87500, 98000,
    107999 and 108000 kHz the channel expression of the source evaluates
    to 0, 0, 230, 440, 640 and 640, each within 25 kHz of the request once
    decoded. *)
Theorem set_frequency_channel_index :
  (forall (f : Z) (c : i2c_client),
     76000 <= f <= 108000 ->
     let idx := (f - 76000 + 25) / 50 in
     rda5807_set_frequency f c =
       rda5807_update_reg RDA5807_REG_CHAN chan_mask (chan_word idx) c /\
     Z.shiftr (Z.land (chan_word idx) RDA5807_MASK_CHAN_WRCHAN)
       RDA5807_SHIFT_CHAN_WRCHAN = idx /\
     Z.abs (idx * 50 + 76000 - f) <= 25) /\
  map wrchan_of_khz [76000; 76001; 87500; 98000; 107999; 108000]
    = [0; 0; 230; 440; 640; 640] /\
  Forall (fun f => Z.abs (wrchan_of_khz f * 50 + 76000 - f) <= 25)
    [76000; 76001; 87500; 98000; 107999; 108000].
Proof.
  split; [|split].
  - intros f c H idx.
    destruct (wrchan_of_khz_in_band f H) as [E B].
    split; [|split].
    + rewrite (set_frequency_in_band f c H), E. reflexivity.
    + apply chan_word_field. subst idx. rewrite <- E. lia.
    + apply chan_index_rounds_to_nearest.
  - reflexivity.
  - repeat constructor; vm_compute; discriminate.
Qed.

(** C3.  For every 32-bit frequency strictly below 76000 kHz or strictly
    above 108000 kHz, [rda5807_set_frequency] returns [-ERANGE], a negative
    value, and leaves the client as it found it: no transfer is issued and
    no register changes. *)
Theorem set_frequency_out_of_band (f : Z) (c : i2c_client) :
  0 <= f < 2 ^ 32 ->
  f < 76000 \/ 108000 < f ->
  let r := rda5807_set_frequency f c in
  fst r = - ERANGE /\ fst r < 0 /\ snd r = c /\ trace (snd r) = trace c.
Proof.
  intros R H r. subst r. rewrite (set_frequency_rejects f c R H).
  pose proof ERANGE_pos. cbn [fst snd]. repeat split; try reflexivity. lia.
Qed.

(** C10.  For every frequency of the band [76000, 108000] kHz the channel
    index [(f - 76000 + 25) / 50] is at most 640 and, shifted left by 6, has
    no bit outside the WRCHAN mask.  The encoder calls the update primitive
    on CHAN with the mask and the value it has accumulated; that mask is
    BAND | SPACE | WRCHAN | TUNE, that value carries band 2, spacing 2, the
    shifted index and the TUNE bit, and the value has no bit outside the
    mask: [value & ~mask = 0]. *)
Theorem set_frequency_word_within_mask (f : Z) (c : i2c_client) :
  76000 <= f <= 108000 ->
  let idx := wrchan_of_khz f in
  let mask := fst (set_frequency_fields f) in
  let value := snd (set_frequency_fields f) in
  idx = (f - 76000 + 25) / 50 /\
  0 <= idx <= 640 /\
  Z.land (Z.shiftl idx RDA5807_SHIFT_CHAN_WRCHAN)
    (Z.lnot RDA5807_MASK_CHAN_WRCHAN) = 0 /\
  rda5807_set_frequency f c =
    rda5807_update_reg RDA5807_REG_CHAN mask value c /\
  mask = chan_mask /\
  value = chan_word idx /\
  Z.land value (Z.lnot mask) = 0.
Proof.
  intros H idx mask value. destruct (wrchan_of_khz_in_band f H) as [E B].
  fold idx in E, B.
  pose proof (set_frequency_fields_in_band f H) as F. fold idx in F.
  assert (Fm : mask = chan_mask) by (subst mask; rewrite F; reflexivity).
  assert (Fv : value = chan_word idx) by (subst value; rewrite F; reflexivity).
  split; [exact E|]. split; [exact B|].
  split; [apply wrchan_in_field; lia|].
  split; [apply set_frequency_passes_fields; exact H|].
  split; [exact Fm|]. split; [exact Fv|].
  rewrite Fm, Fv. apply chan_word_in_mask; lia.
Qed.

End FrequencyFacts.

(** Every single-field encoder hands the update primitive a value inside
    its mask; for the volume this holds on the range the control is
    registered with. *)
Lemma encoder_values_within_mask :
  (forall enabled,
     Z.land (if enabled =? 0 then 0 else RDA5807_MASK_CTRL_ENABLE)
       (Z.lnot RDA5807_MASK_CTRL_ENABLE) = 0) /\
  (forall muted,
     Z.land (if muted =? 0 then RDA5807_MASK_CTRL_DMUTE else 0)
       (Z.lnot RDA5807_MASK_CTRL_DMUTE) = 0) /\
  (forall b : bool,
     Z.land (if b then RDA5807_MASK_DEEMPHASIS else 0)
       (Z.lnot RDA5807_MASK_DEEMPHASIS) = 0) /\
  (forall volume, 0 <= volume <= 15 ->
     Z.land (Z.shiftl volume RDA5807_SHIFT_VOLUME_DAC)
       (Z.lnot RDA5807_MASK_VOLUME_DAC) = 0).
Proof.
  split; [|split; [|split]].
  - intros e. destruct (e =? 0); reflexivity.
  - intros m. destruct (m =? 0); reflexivity.
  - intros b. destruct b; reflexivity.
  - intros v Hv. apply Z.bits_inj'. intros i Hi.
    unfold RDA5807_SHIFT_VOLUME_DAC, RDA5807_MASK_VOLUME_DAC.
    rewrite !Z.shiftl_0_r. change 0xF with (Z.ones 4).
    rewrite Z.land_spec, Z.lnot_spec, Z.testbit_ones, Z.bits_0 by lia.
    rewrite (testbit_bounded 4 v i) by lia.
    split_cmp.
Qed.

(** ** The single-bit encoders and the compound mute control *)

Section ControlFacts.

Context {K : kernel_headers}.

(** What a successful update leaves behind, for any mask and value. *)
Lemma update_reg_effect (reg : rda5807_reg) (mask val : Z) (c : i2c_client) :
  fst (rda5807_update_reg reg mask val c) = 0 ->
  let c' := snd (rda5807_update_reg reg mask val c) in
  let merged := rmw_word mask val (chip_reg16 c reg) in
  chip_reg16 c' reg = merged /\
  trace c' = trace c ++ [ read_xfer c reg; write_xfer c reg merged ] /\
  (forall r, r <> reg -> chip_reg16 c' r = chip_reg16 c r).
Proof.
  intros R c' merged. destruct (update_reg_success reg mask val c R) as [F1 F2].
  subst c'. rewrite (update_reg_ok reg mask val c F1 F2). cbn [snd trace].
  fold merged. split; [|split].
  - unfold chip_reg16 at 1. cbn [chip_regs].
    rewrite reg_store_same. apply rmw_word_u16.
  - reflexivity.
  - intros r Hr. unfold chip_reg16. cbn [chip_regs].
    rewrite reg_store_other; [reflexivity|].
    intros A. apply Hr, reg_addr_inj, A.
Qed.

(** Whatever the bus does, an update starts with the read of its register,
    and the client keeps its address. *)
Lemma update_reg_attempts_read (reg : rda5807_reg) (mask val : Z)
    (c : i2c_client) :
  exists t,
    trace (snd (rda5807_update_reg reg mask val c))
      = trace c ++ read_xfer c reg :: t /\
    addr (snd (rda5807_update_reg reg mask val c)) = addr c.
Proof.
  destruct (completes 2 (faults c)) eqn:F1.
  - destruct (completes 1 (tl (faults c))) eqn:F2.
    + rewrite (update_reg_ok reg mask val c F1 F2). cbn [snd trace addr].
      eexists. split; reflexivity.
    + destruct (update_reg_write_fails reg mask val c F1 F2) as (e & _ & E).
      rewrite E. cbn [snd trace addr]. eexists. split; reflexivity.
  - destruct (update_reg_read_fails reg mask val c F1) as (e & p & _ & E).
    rewrite E. cbn [snd trace addr]. exists []. split; reflexivity.
Qed.

Lemma read_xfer_addr (c c' : i2c_client) (reg : rda5807_reg) :
  addr c' = addr c -> read_xfer c' reg = read_xfer c reg.
Proof. intros A. unfold read_xfer. rewrite A. reflexivity. Qed.

(** C4.  The mute control is two updates of CTRL in sequence, the ENABLE bit
    first and the DMUTE bit second.  The second update runs on the client
    the first one left, whatever the first returned: the bus sees the read
    of the first update and later the read of the second.  The value
    returned is the first update's when that is non-zero and the second
    update's otherwise. *)
Theorem s_ctrl_mute_attempts_both (v : Z) (c : i2c_client) :
  let r1 :=
    rda5807_update_reg RDA5807_REG_CTRL RDA5807_MASK_CTRL_ENABLE
      (if v =? 0 then RDA5807_MASK_CTRL_ENABLE else 0) c in
  let r2 :=
    rda5807_update_reg RDA5807_REG_CTRL RDA5807_MASK_CTRL_DMUTE
      (if v =? 0 then RDA5807_MASK_CTRL_DMUTE else 0) (snd r1) in
  let r := rda5807_s_ctrl (mk_ctrl V4L2_CID_AUDIO_MUTE v) c in
  snd r = snd r2 /\
  fst r = (if fst r1 =? 0 then fst r2 else fst r1) /\
  (fst r1 <> 0 -> fst r = fst r1) /\
  (fst r1 = 0 -> fst r = fst r2) /\
  exists t1 t2,
    trace (snd r1) = trace c ++ read_xfer c RDA5807_REG_CTRL :: t1 /\
    trace (snd r) =
      trace (snd r1) ++ read_xfer c RDA5807_REG_CTRL :: t2.
Proof.
  intros r1 r2 r.
  assert (E : r = (if fst r1 =? 0 then fst r2 else fst r1, snd r2)).
  { subst r r1 r2. unfold rda5807_s_ctrl, bind, ret. cbn [id val].
    rewrite Z.eqb_refl.
    unfold rda5807_set_enable, rda5807_set_mute, c_not.
    replace (if (if v =? 0 then 1 else 0) =? 0
             then 0 else RDA5807_MASK_CTRL_ENABLE)
      with (if v =? 0 then RDA5807_MASK_CTRL_ENABLE else 0)
      by (destruct (v =? 0); reflexivity).
    destruct (rda5807_update_reg RDA5807_REG_CTRL RDA5807_MASK_CTRL_ENABLE
                (if v =? 0 then RDA5807_MASK_CTRL_ENABLE else 0) c)
      as [err1 c1].
    cbn [fst snd].
    destruct (rda5807_update_reg RDA5807_REG_CTRL RDA5807_MASK_CTRL_DMUTE
                (if v =? 0 then RDA5807_MASK_CTRL_DMUTE else 0) c1)
      as [err2 c2].
    reflexivity. }
  rewrite E. cbn [fst snd].
  split; [reflexivity|]. split; [reflexivity|]. split; [|split].
  - intros N. destruct (Z.eqb_spec (fst r1) 0); [contradiction | reflexivity].
  - intros Z1. rewrite Z1. reflexivity.
  - destruct (update_reg_attempts_read RDA5807_REG_CTRL
                RDA5807_MASK_CTRL_ENABLE
                (if v =? 0 then RDA5807_MASK_CTRL_ENABLE else 0) c)
      as (t1 & T1 & A1).
    fold r1 in T1, A1.
    destruct (update_reg_attempts_read RDA5807_REG_CTRL
                RDA5807_MASK_CTRL_DMUTE
                (if v =? 0 then RDA5807_MASK_CTRL_DMUTE else 0) (snd r1))
      as (t2 & T2 & _).
    fold r2 in T2. rewrite (read_xfer_addr c (snd r1) _ A1) in T2.
    exists t1, t2. split; assumption.
Qed.

(** C5.  [rda5807_set_mute] is the update of CTRL under the DMUTE mask,
    which is bit 14 alone, with a value whose bit 14 is set exactly when
    [muted] is zero; when it returns 0, bit 14 of CTRL is set exactly when
    [muted] is zero and every other bit of CTRL is as before. *)
Theorem set_mute_drives_dmute (muted : Z) (c : i2c_client) :
  let value := if muted =? 0 then RDA5807_MASK_CTRL_DMUTE else 0 in
  rda5807_set_mute muted c =
    rda5807_update_reg RDA5807_REG_CTRL RDA5807_MASK_CTRL_DMUTE value c /\
  (forall i, Z.testbit RDA5807_MASK_CTRL_DMUTE i = (14 =? i)) /\
  Z.testbit value 14 = (muted =? 0) /\
  Z.land value (Z.lnot RDA5807_MASK_CTRL_DMUTE) = 0 /\
  (fst (rda5807_set_mute muted c) = 0 ->
   let c' := snd (rda5807_set_mute muted c) in
   Z.testbit (chip_reg16 c' RDA5807_REG_CTRL) 14 = (muted =? 0) /\
   forall i, 0 <= i -> i <> 14 ->
     Z.testbit (chip_reg16 c' RDA5807_REG_CTRL) i
       = Z.testbit (chip_reg16 c RDA5807_REG_CTRL) i).
Proof.
  intros value.
  assert (B : forall i, Z.testbit RDA5807_MASK_CTRL_DMUTE i = (14 =? i)).
  { intros i. unfold RDA5807_MASK_CTRL_DMUTE. apply testbit_BIT. lia. }
  assert (V : forall i, Z.testbit value i = (muted =? 0) && (14 =? i)).
  { intros i. subst value. destruct (muted =? 0).
    - apply B.
    - apply Z.bits_0. }
  split; [reflexivity|]. split; [exact B|]. split; [|split].
  - rewrite V. apply andb_true_r.
  - subst value. destruct (muted =? 0); reflexivity.
  - intros R c'. unfold rda5807_set_mute in R, c'. fold value in R, c'.
    destruct (update_reg_effect _ _ _ _ R) as (M & _ & _).
    fold c' in M. rewrite M.
    pose proof (u16_range (chip_regs c (reg_addr RDA5807_REG_CTRL))) as Rg.
    fold (chip_reg16 c RDA5807_REG_CTRL) in Rg.
    split.
    + rewrite rmw_word_testbit, V, B by lia.
      change (14 =? 14) with true. change (14 <? 16) with true.
      cbn [negb andb]. rewrite andb_false_r, andb_true_r, orb_false_r.
      reflexivity.
    + intros i Hi Ni. rewrite rmw_word_testbit, V, B by lia.
      rewrite (small_testbit (chip_reg16 c RDA5807_REG_CTRL) i Rg).
      destruct (Z.eqb_spec 14 i) as [E|_]; [lia|].
      rewrite andb_false_r, andb_true_r. cbn [orb].
      destruct (i <? 16); reflexivity.
Qed.

End ControlFacts.

(** ** The tuner status decoder *)

Lemma land_BIT (w n : Z) :
  0 <= n -> Z.land w (BIT n) = if Z.testbit w n then BIT n else 0.
Proof.
  intros Hn. apply Z.bits_inj'. intros i Hi.
  rewrite Z.land_spec, testbit_BIT by exact Hn.
  destruct (Z.eqb_spec n i) as [->|N].
  - destruct (Z.testbit w i) eqn:E.
    + rewrite testbit_BIT, Z.eqb_refl by exact Hi. reflexivity.
    + rewrite Z.bits_0. reflexivity.
  - rewrite andb_false_r. destruct (Z.testbit w n).
    + rewrite testbit_BIT by exact Hn.
      symmetry. apply Z.eqb_neq. exact N.
    + rewrite Z.bits_0. reflexivity.
Qed.

Lemma bit_set_BIT (w n : Z) : 0 <= n -> bit_set w (BIT n) = Z.testbit w n.
Proof.
  intros Hn. unfold bit_set. rewrite land_BIT by exact Hn.
  destruct (Z.testbit w n); [|reflexivity].
  unfold BIT. rewrite Z.shiftl_1_l.
  destruct (Z.eqb_spec (2 ^ n) 0) as [E|_]; [|reflexivity].
  pose proof (Z.pow_pos_nonneg 2 n ltac:(lia) Hn). lia.
Qed.

Lemma seekres_known (s : Z) :
  (Z.land s (Z.lor RDA5807_MASK_SEEKRES_COMPLETE RDA5807_MASK_SEEKRES_FAIL)
   =? RDA5807_MASK_SEEKRES_COMPLETE)
  = bit_set s RDA5807_MASK_SEEKRES_COMPLETE
    && negb (bit_set s RDA5807_MASK_SEEKRES_FAIL).
Proof.
  unfold RDA5807_MASK_SEEKRES_COMPLETE, RDA5807_MASK_SEEKRES_FAIL.
  rewrite !bit_set_BIT, Z.land_lor_distr_r, !land_BIT by lia.
  destruct (Z.testbit s 14), (Z.testbit s 13); reflexivity.
Qed.

Section TunerFacts.

Context {K : kernel_headers}.

Lemma tuner_rxsubchans_cases (s : Z) :
  tuner_rxsubchans s =
    if bit_set s RDA5807_MASK_SEEKRES_COMPLETE
       && negb (bit_set s RDA5807_MASK_SEEKRES_FAIL)
    then if bit_set s RDA5807_MASK_SEEKRES_STEREO
         then V4L2_TUNER_SUB_STEREO else V4L2_TUNER_SUB_MONO
    else Z.lor V4L2_TUNER_SUB_MONO V4L2_TUNER_SUB_STEREO.
Proof. unfold tuner_rxsubchans. rewrite seekres_known. reflexivity. Qed.

Lemma tuner_signal_rssi (v : Z) :
  0 <= v < 2 ^ 16 ->
  let rssi := Z.shiftr (Z.land v RDA5807_MASK_RSSI) RDA5807_SHIFT_RSSI in
  tuner_signal v = rssi * 2 ^ 9 /\
  rssi = (v / 2 ^ 9) mod 2 ^ 7 /\
  0 <= rssi < 2 ^ 7.
Proof.
  intros Hv rssi.
  assert (E : rssi = (v / 2 ^ 9) mod 2 ^ 7).
  { subst rssi. unfold RDA5807_MASK_RSSI, RDA5807_SHIFT_RSSI.
    rewrite <- Z.shiftr_div_pow2, <- Z.land_ones by lia.
    apply Z.bits_inj'. intros i Hi.
    change (Z.ones 7) with 0x7F. push_testbit.
    replace (i + 9 - 9) with i by lia. split_cmp. }
  assert (B : 0 <= rssi < 2 ^ 7).
  { rewrite E. apply Z.mod_pos_bound. lia. }
  split; [|split; assumption].
  unfold tuner_signal. rewrite (u16_small v Hv). fold rssi.
  rewrite u16_small by lia.
  change (16 - 7) with 9. apply Z.shiftl_mul_pow2. lia.
Qed.

(** A zero return of the tuner query means that its index was 0 and both
    reads went through; the answer is then decoded from the two registers
    as the chip held them. *)
Lemma g_tuner_success (a : v4l2_tuner) (c : i2c_client) :
  fst (fst (rda5807_vidioc_g_tuner a c)) = 0 ->
  let a' := snd (fst (rda5807_vidioc_g_tuner a c)) in
  let c' := snd (rda5807_vidioc_g_tuner a c) in
  rxsubchans a' = tuner_rxsubchans (chip_reg16 c RDA5807_REG_SEEK_RESULT) /\
  signal a' = tuner_signal (chip_reg16 c RDA5807_REG_SIGNAL) /\
  trace c' = trace c ++ [ read_xfer c RDA5807_REG_SEEK_RESULT;
                          read_xfer c RDA5807_REG_SIGNAL ] /\
  chip_regs c' = chip_regs c.
Proof.
  unfold rda5807_vidioc_g_tuner, bind, ret.
  pose proof EINVAL_pos as PE.
  destruct (index a =? 0); cbn [negb]; [|cbn [fst]; lia].
  destruct (completes 2 (faults c)) eqn:F1.
  2:{ destruct (i2c_read_fail RDA5807_REG_SEEK_RESULT c F1)
        as (e & p & Hneg & E).
      rewrite E.
      replace (e <? 0) with true by (symmetry; apply Z.ltb_lt; exact Hneg).
      cbn [fst]. lia. }
  rewrite (i2c_read_ok _ c F1).
  pose proof (u16_range (chip_regs c (reg_addr RDA5807_REG_SEEK_RESULT))) as R1.
  fold (chip_reg16 c RDA5807_REG_SEEK_RESULT) in R1.
  replace (chip_reg16 c RDA5807_REG_SEEK_RESULT <? 0) with false
    by (symmetry; apply Z.ltb_ge; lia).
  set (c1 := mk_client _ _ _ _ _).
  destruct (completes 2 (faults c1)) eqn:F2.
  2:{ destruct (i2c_read_fail RDA5807_REG_SIGNAL c1 F2)
        as (e & p & Hneg & E).
      rewrite E.
      replace (e <? 0) with true by (symmetry; apply Z.ltb_lt; exact Hneg).
      cbn [fst]. lia. }
  rewrite (i2c_read_ok _ c1 F2).
  assert (S : chip_reg16 c1 RDA5807_REG_SIGNAL
              = chip_reg16 c RDA5807_REG_SIGNAL) by reflexivity.
  rewrite S.
  pose proof (u16_range (chip_regs c (reg_addr RDA5807_REG_SIGNAL))) as R2.
  fold (chip_reg16 c RDA5807_REG_SIGNAL) in R2.
  replace (chip_reg16 c RDA5807_REG_SIGNAL <? 0) with false
    by (symmetry; apply Z.ltb_ge; lia).
  intros _. cbn [fst snd rxsubchans signal trace chip_regs].
  rewrite (u16_small _ R1).
  subst c1. cbn [trace chip_regs]. unfold read_xfer at 3. cbn [addr].
  rewrite <- app_assoc. repeat split; reflexivity.
Qed.

End TunerFacts.

Section TunerClaims.

Context {K : kernel_headers}.

(** C6.  When the tuner query succeeds, the sub-channel word it reports is
    the stereo flag exactly when SEEK_RESULT has the seek-complete bit set,
    the seek-fail bit clear and the stereo bit set; the mono flag exactly
    when complete is set, fail is clear and stereo is clear; and both flags
    together exactly when complete is clear or fail is set. *)
Theorem g_tuner_subchannel_decode (a : v4l2_tuner) (c : i2c_client) :
  fst (fst (rda5807_vidioc_g_tuner a c)) = 0 ->
  let s := chip_reg16 c RDA5807_REG_SEEK_RESULT in
  let complete := bit_set s RDA5807_MASK_SEEKRES_COMPLETE in
  let fail := bit_set s RDA5807_MASK_SEEKRES_FAIL in
  let stereo := bit_set s RDA5807_MASK_SEEKRES_STEREO in
  let rx := rxsubchans (snd (fst (rda5807_vidioc_g_tuner a c))) in
  (rx = V4L2_TUNER_SUB_STEREO <->
     complete = true /\ fail = false /\ stereo = true) /\
  (rx = V4L2_TUNER_SUB_MONO <->
     complete = true /\ fail = false /\ stereo = false) /\
  (rx = Z.lor V4L2_TUNER_SUB_MONO V4L2_TUNER_SUB_STEREO <->
     complete = false \/ fail = true).
Proof.
  intros R s complete fail stereo rx.
  destruct (g_tuner_success a c R) as (X & _).
  fold rx s in X. rewrite tuner_rxsubchans_cases in X.
  fold complete fail stereo in X.
  pose proof sub_mono_stereo as D1.
  pose proof sub_both_mono as D2.
  pose proof sub_both_stereo as D3.
  rewrite X.
  destruct complete, fail, stereo; cbn [andb negb];
    repeat split; intros; try tauto; try congruence;
    try (exfalso; intuition congruence).
Qed.

(** C7.  When the tuner query succeeds, the signal level it reports is the
    RSSI field of the SIGNAL register, bits 9 to 15, a number below 2^7,
    multiplied by 2^9. *)
Theorem g_tuner_signal_scaling (a : v4l2_tuner) (c : i2c_client) :
  fst (fst (rda5807_vidioc_g_tuner a c)) = 0 ->
  let v := chip_reg16 c RDA5807_REG_SIGNAL in
  let rssi := Z.shiftr (Z.land v RDA5807_MASK_RSSI) RDA5807_SHIFT_RSSI in
  signal (snd (fst (rda5807_vidioc_g_tuner a c))) = rssi * 2 ^ 9 /\
  rssi = (v / 2 ^ 9) mod 2 ^ 7 /\
  0 <= rssi < 2 ^ 7.
Proof.
  intros R v rssi.
  destruct (g_tuner_success a c R) as (_ & S & _).
  rewrite S. apply tuner_signal_rssi. apply u16_range.
Qed.

End TunerClaims.

(** ** Probe and resume *)

Lemma chipid_high_byte (v : Z) :
  0 <= v < 2 ^ 16 ->
  (Z.land v 0xFF00 =? 0x5800) = (v / 2 ^ 8 =? 0x58).
Proof.
  intros Hv.
  assert (E : Z.land v 0xFF00 = v / 2 ^ 8 * 2 ^ 8).
  { rewrite <- Z.shiftr_div_pow2, <- Z.shiftl_mul_pow2 by lia.
    apply Z.bits_inj'. intros i Hi.
    change 0xFF00 with (Z.shiftl (Z.ones 8) 8).
    rewrite Z.land_spec, !testbit_shiftl, Z.testbit_ones by lia.
    destruct (Z.leb_spec 8 i).
    - rewrite Z.shiftr_spec by lia. replace (i - 8 + 8) with i by lia.
      rewrite (testbit_bounded 16 v i) by lia. split_cmp.
    - cbn [andb]. rewrite andb_false_r. reflexivity. }
  rewrite E.
  destruct (Z.eqb_spec (v / 2 ^ 8 * 2 ^ 8) 0x5800),
    (Z.eqb_spec (v / 2 ^ 8) 0x58); first [reflexivity | lia].
Qed.

Section LifecycleClaims.

Context {K : kernel_headers}.

(** C8.  Probe starts with the read of the chip-ID register.  When that
    read goes through and the high byte of the word read is not 0x58, probe
    returns [-ENODEV], a negative value, having called neither the
    allocator nor the control framework, and the read of chip-ID is the only
    transfer it has put on the bus; the chip's registers are as before. *)
Theorem probe_rejects_foreign_chip (env : host_env) (c : i2c_client) :
  completes 2 (faults c) = true ->
  chip_reg16 c RDA5807_REG_CHIPID / 2 ^ 8 <> 0x58 ->
  let r := rda5807_i2c_probe env c in
  fst (fst r) = - ENODEV /\
  fst (fst r) < 0 /\
  snd (fst r) = [] /\
  trace (snd r) = trace c ++ [ read_xfer c RDA5807_REG_CHIPID ] /\
  chip_regs (snd r) = chip_regs c.
Proof.
  intros F N r. subst r. unfold rda5807_i2c_probe, bind, ret.
  rewrite (i2c_read_ok _ c F).
  pose proof (u16_range (chip_regs c (reg_addr RDA5807_REG_CHIPID))) as R.
  fold (chip_reg16 c RDA5807_REG_CHIPID) in R.
  replace (chip_reg16 c RDA5807_REG_CHIPID <? 0) with false
    by (symmetry; apply Z.ltb_ge; lia).
  rewrite (chipid_high_byte _ R).
  replace (chip_reg16 c RDA5807_REG_CHIPID / 2 ^ 8 =? 0x58) with false
    by (symmetry; apply Z.eqb_neq; exact N).
  pose proof ENODEV_pos. cbn [negb fst snd trace chip_regs].
  repeat split; try reflexivity. lia.
Qed.

(** The gate lets the chip family through: with a chip-ID word whose high
    byte is 0x58, probe goes on to the allocator. *)
Lemma probe_accepts_family (env : host_env) (c : i2c_client) :
  completes 2 (faults c) = true ->
  chip_reg16 c RDA5807_REG_CHIPID / 2 ^ 8 = 0x58 ->
  exists calls, snd (fst (rda5807_i2c_probe env c)) = Kzalloc :: calls.
Proof.
  intros F E. unfold rda5807_i2c_probe, bind, ret.
  rewrite (i2c_read_ok _ c F).
  pose proof (u16_range (chip_regs c (reg_addr RDA5807_REG_CHIPID))) as R.
  fold (chip_reg16 c RDA5807_REG_CHIPID) in R.
  replace (chip_reg16 c RDA5807_REG_CHIPID <? 0) with false
    by (symmetry; apply Z.ltb_ge; lia).
  rewrite (chipid_high_byte _ R), E. cbn [negb Z.eqb Pos.eqb].
  destruct (kzalloc_ok env); cbn [negb]; [|eexists; reflexivity].
  destruct (ctrl_handler_error env =? 0); cbn [negb];
    [|eexists; reflexivity].
  destruct (video_register_device env <? 0); [eexists; reflexivity|].
  destruct (v4l2_ctrl_handler_setup env rda5807_s_ctrl _) as [err c2].
  destruct (err <? 0); eexists; reflexivity.
Qed.

(** C9.  Resume asks the control framework for the current value of the mute
    control.  When that value is non-zero (muted) it returns 0 and leaves
    the client as it found it, with no transfer on the bus; when it is zero
    (unmuted) it is the enable update: the update of CTRL that sets the
    ENABLE bit, which starts with a read of CTRL. *)
Theorem resume_enables_only_when_unmuted
    (ctrl_handler : v4l2_ctrl_handler) (c : i2c_client) :
  let mute_val :=
    v4l2_ctrl_g_ctrl (v4l2_ctrl_find ctrl_handler V4L2_CID_AUDIO_MUTE) in
  (mute_val <> 0 ->
     rda5807_resume ctrl_handler c = (0, c)) /\
  (mute_val = 0 ->
     rda5807_resume ctrl_handler c = rda5807_set_enable 1 c /\
     rda5807_resume ctrl_handler c =
       rda5807_update_reg RDA5807_REG_CTRL RDA5807_MASK_CTRL_ENABLE
         RDA5807_MASK_CTRL_ENABLE c /\
     exists t,
       trace (snd (rda5807_resume ctrl_handler c))
         = trace c ++ read_xfer c RDA5807_REG_CTRL :: t).
Proof.
  intros mute_val. unfold rda5807_resume. fold mute_val. unfold c_not.
  split.
  - intros N. destruct (Z.eqb_spec mute_val 0); [contradiction|].
    reflexivity.
  - intros E. rewrite E. cbn [Z.eqb negb].
    split; [reflexivity|]. split; [reflexivity|].
    unfold rda5807_set_enable. cbn [Z.eqb].
    destruct (update_reg_attempts_read RDA5807_REG_CTRL
                RDA5807_MASK_CTRL_ENABLE RDA5807_MASK_CTRL_ENABLE c)
      as (t & T & _).
    exists t. exact T.
Qed.

End LifecycleClaims.

(** ** Concrete instances

    Each statement with a premise, applied to an input that meets it, with
    the constants of the Linux 3.4 headers. *)

Lemma set_frequency_channel_index_witness :
  let c := quiet_client 0 in
  76000 <= 98000 <= 108000 /\
  rda5807_set_frequency (K := linux_3_4) 98000 c =
    rda5807_update_reg (K := linux_3_4) RDA5807_REG_CHAN chan_mask
      (chan_word 440) c /\
  Z.shiftr (Z.land (chan_word 440) RDA5807_MASK_CHAN_WRCHAN)
    RDA5807_SHIFT_CHAN_WRCHAN = 440 /\
  Z.abs (440 * 50 + 76000 - 98000) <= 25.
Proof.
  intros c. split; [lia|].
  apply (proj1 (set_frequency_channel_index (K := linux_3_4)) 98000 c).
  lia.
Defined.

Lemma set_frequency_out_of_band_witness :
  let c := quiet_client 0x1234 in
  let r := rda5807_set_frequency (K := linux_3_4) 108001 c in
  (0 <= 108001 < 2 ^ 32 /\ (108001 < 76000 \/ 108000 < 108001)) /\
  fst r = -34 /\ fst r < 0 /\ snd r = c /\ trace (snd r) = trace c.
Proof.
  intros c r. split; [lia|].
  apply (set_frequency_out_of_band (K := linux_3_4) 108001 c); lia.
Defined.

Lemma set_frequency_word_within_mask_witness :
  let c := quiet_client 0 in
  let mask := fst (set_frequency_fields 108000) in
  let value := snd (set_frequency_fields 108000) in
  76000 <= 108000 <= 108000 /\
  wrchan_of_khz 108000 = (108000 - 76000 + 25) / 50 /\
  0 <= wrchan_of_khz 108000 <= 640 /\
  Z.land (Z.shiftl (wrchan_of_khz 108000) RDA5807_SHIFT_CHAN_WRCHAN)
    (Z.lnot RDA5807_MASK_CHAN_WRCHAN) = 0 /\
  rda5807_set_frequency (K := linux_3_4) 108000 c =
    rda5807_update_reg (K := linux_3_4) RDA5807_REG_CHAN mask value c /\
  mask = chan_mask /\
  value = chan_word (wrchan_of_khz 108000) /\
  Z.land value (Z.lnot mask) = 0.
Proof.
  intros c mask value. split; [lia|].
  apply (set_frequency_word_within_mask (K := linux_3_4) 108000 c). lia.
Defined.

(** The first transfer of the mute control fails with errno 5: the control
    returns -5, and the bus has still seen the read and the write of the
    second update after the failed read of the first. *)
Lemma s_ctrl_mute_attempts_both_witness :
  let c := mk_client 0x11 (fun _ => 0) 0 [XferErr 5] [] in
  let r1 :=
    rda5807_update_reg (K := linux_3_4) RDA5807_REG_CTRL
      RDA5807_MASK_CTRL_ENABLE 0 c in
  let r :=
    rda5807_s_ctrl (K := linux_3_4)
      (mk_ctrl (V4L2_CID_AUDIO_MUTE (kernel_headers := linux_3_4)) 1) c in
  fst r1 <> 0 /\ fst r = fst r1 /\ fst r = -5 /\
  length (trace (snd r)) = 3%nat.
Proof.
  intros c r1 r.
  assert (N : fst r1 <> 0) by (vm_compute; discriminate).
  split; [exact N|]. split.
  - exact (proj1 (proj2 (proj2
             (s_ctrl_mute_attempts_both (K := linux_3_4) 1 c))) N).
  - split; reflexivity.
Defined.

Lemma set_mute_drives_dmute_witness :
  let c := quiet_client 0xFFFF in
  let r := rda5807_set_mute (K := linux_3_4) 1 c in
  fst r = 0 /\
  Z.testbit (chip_reg16 (snd r) RDA5807_REG_CTRL) 14 = false /\
  forall i, 0 <= i -> i <> 14 ->
    Z.testbit (chip_reg16 (snd r) RDA5807_REG_CTRL) i
      = Z.testbit (chip_reg16 c RDA5807_REG_CTRL) i.
Proof.
  intros c r. split; [reflexivity|].
  apply (proj2 (proj2 (proj2 (proj2
           (set_mute_drives_dmute (K := linux_3_4) 1 c))))).
  reflexivity.
Defined.

(** SEEK_RESULT = 0x4400: complete set, fail clear, stereo set. *)
Lemma g_tuner_subchannel_decode_witness :
  let c := quiet_client 0x4400 in
  let r := rda5807_vidioc_g_tuner (K := linux_3_4) blank_tuner c in
  fst (fst r) = 0 /\
  rxsubchans (snd (fst r))
    = V4L2_TUNER_SUB_STEREO (kernel_headers := linux_3_4).
Proof.
  intros c r. split; [reflexivity|].
  apply (proj1 (g_tuner_subchannel_decode (K := linux_3_4) blank_tuner c
                  eq_refl)).
  repeat split.
Defined.

(** SIGNAL = 0xFE00: RSSI 127, reported as 127 * 512. *)
Lemma g_tuner_signal_scaling_witness :
  let c := quiet_client 0xFE00 in
  let r := rda5807_vidioc_g_tuner (K := linux_3_4) blank_tuner c in
  fst (fst r) = 0 /\
  signal (snd (fst r)) = 127 * 2 ^ 9.
Proof.
  intros c r. split; [reflexivity|].
  exact (proj1 (g_tuner_signal_scaling (K := linux_3_4) blank_tuner c
                  eq_refl)).
Defined.

(** Chip-ID = 0x1234: high byte 0x12. *)
Lemma probe_rejects_foreign_chip_witness :
  let c := quiet_client 0x1234 in
  let r := rda5807_i2c_probe (K := linux_3_4) willing_host c in
  (completes 2 (faults c) = true /\
   chip_reg16 c RDA5807_REG_CHIPID / 2 ^ 8 <> 0x58) /\
  fst (fst r) = -19 /\
  fst (fst r) < 0 /\
  snd (fst r) = [] /\
  trace (snd r) = trace c ++ [ read_xfer c RDA5807_REG_CHIPID ] /\
  chip_regs (snd r) = chip_regs c.
Proof.
  intros c r.
  assert (N : chip_reg16 c RDA5807_REG_CHIPID / 2 ^ 8 <> 0x58)
    by (vm_compute; discriminate).
  split; [split; [reflexivity | exact N]|].
  exact (probe_rejects_foreign_chip (K := linux_3_4) willing_host c
           eq_refl N).
Defined.

(** The mute control holds 1: resume leaves the bus alone. *)
Lemma resume_enables_only_when_unmuted_witness :
  let hdl := mk_handler (fun _ => 1) in
  let c := quiet_client 0 in
  v4l2_ctrl_g_ctrl
    (v4l2_ctrl_find hdl (V4L2_CID_AUDIO_MUTE (kernel_headers := linux_3_4)))
    <> 0 /\
  rda5807_resume (K := linux_3_4) hdl c = (0, c).
Proof.
  intros hdl c.
  assert (N : v4l2_ctrl_g_ctrl
                (v4l2_ctrl_find hdl
                   (V4L2_CID_AUDIO_MUTE (kernel_headers := linux_3_4))) <> 0)
    by (vm_compute; discriminate).
  split; [exact N|].
  exact (proj1 (resume_enables_only_when_unmuted (K := linux_3_4) hdl c) N).
Defined.

(** * Further properties of the driver *)

(** ** The register accessors, whatever the bus does *)

Section AccessorOutcomes.

Context {K : kernel_headers}.

Lemma i2c_read_errno (reg : rda5807_reg) (c : i2c_client)
    (e : positive) (rest : list xfer_outcome) :
  faults c = XferErr e :: rest -> fst (rda5807_i2c_read reg c) = Z.neg e.
Proof.
  intros F. unfold rda5807_i2c_read, i2c_transfer. rewrite F. reflexivity.
Qed.

Lemma i2c_read_short (reg : rda5807_reg) (c : i2c_client)
    (k : nat) (rest : list xfer_outcome) :
  faults c = XferUpto k :: rest -> (k < 2)%nat ->
  fst (rda5807_i2c_read reg c) = - EIO.
Proof.
  intros F Hk. unfold rda5807_i2c_read, i2c_transfer. rewrite F.
  destruct k as [|[|k]]; [reflexivity | reflexivity | lia].
Qed.

Lemma i2c_write_errno (reg : rda5807_reg) (v : Z) (c : i2c_client)
    (e : positive) (rest : list xfer_outcome) :
  faults c = XferErr e :: rest -> fst (rda5807_i2c_write reg v c) = Z.neg e.
Proof.
  intros F. unfold rda5807_i2c_write, i2c_transfer. rewrite F. reflexivity.
Qed.

Lemma i2c_write_short (reg : rda5807_reg) (v : Z) (c : i2c_client)
    (rest : list xfer_outcome) :
  faults c = XferUpto 0 :: rest -> fst (rda5807_i2c_write reg v c) = - EIO.
Proof.
  intros F. unfold rda5807_i2c_write, i2c_transfer. rewrite F. reflexivity.
Qed.

(** X1.  A register read never changes a register of the chip and puts
    exactly one transfer on the bus.  When the transfer completes, the value
    returned is the 16-bit word the chip holds, between 0 and 65535;
    otherwise it is negative: the errno of the bus as it came, or [-EIO]
    when fewer than the two messages completed. *)
Theorem i2c_read_outcome (reg : rda5807_reg) (c : i2c_client) :
  let r := rda5807_i2c_read reg c in
  chip_regs (snd r) = chip_regs c /\
  trace (snd r) = trace c ++ [ read_xfer c reg ] /\
  faults (snd r) = tl (faults c) /\
  (completes 2 (faults c) = true ->
     fst r = chip_reg16 c reg /\ 0 <= fst r < 2 ^ 16) /\
  (completes 2 (faults c) = false -> fst r < 0) /\
  (forall e rest, faults c = XferErr e :: rest -> fst r = Z.neg e) /\
  (forall k rest, faults c = XferUpto k :: rest -> (k < 2)%nat ->
     fst r = - EIO).
Proof.
  intros r.
  assert (S : chip_regs (snd r) = chip_regs c /\
              trace (snd r) = trace c ++ [ read_xfer c reg ] /\
              faults (snd r) = tl (faults c)).
  { subst r. destruct (completes 2 (faults c)) eqn:F.
    - rewrite (i2c_read_ok reg c F). repeat split.
    - destruct (i2c_read_fail reg c F) as (e & p & _ & E).
      rewrite E. repeat split. }
  destruct S as (S1 & S2 & S3).
  repeat split; try assumption.
  - subst r. rewrite (i2c_read_ok reg c H). reflexivity.
  - subst r. rewrite (i2c_read_ok reg c H). apply u16_range.
  - subst r. rewrite (i2c_read_ok reg c H). apply u16_range.
  - intros F. subst r. destruct (i2c_read_fail reg c F) as (e & p & N & E).
    rewrite E. exact N.
  - intros e rest F. apply (i2c_read_errno reg c e rest F).
  - intros k rest F Hk. apply (i2c_read_short reg c k rest F Hk).
Qed.

(** X2.  A register write puts exactly one transfer on the bus.  When the
    transfer completes it returns 0, the register holds the 16-bit word
    written and every other register is as before; otherwise it returns a
    negative value (the errno of the bus as it came, or [-EIO] when the
    message did not complete) and no register has changed. *)
Theorem i2c_write_outcome (reg : rda5807_reg) (v : Z) (c : i2c_client) :
  let r := rda5807_i2c_write reg v c in
  trace (snd r) = trace c ++ [ write_xfer c reg (u16 v) ] /\
  faults (snd r) = tl (faults c) /\
  (completes 1 (faults c) = true ->
     fst r = 0 /\
     chip_reg16 (snd r) reg = u16 v /\
     forall r', r' <> reg -> chip_reg16 (snd r) r' = chip_reg16 c r') /\
  (completes 1 (faults c) = false ->
     fst r < 0 /\ chip_regs (snd r) = chip_regs c) /\
  (forall e rest, faults c = XferErr e :: rest -> fst r = Z.neg e) /\
  (forall rest, faults c = XferUpto 0 :: rest -> fst r = - EIO).
Proof.
  intros r.
  assert (S : trace (snd r) = trace c ++ [ write_xfer c reg (u16 v) ] /\
              faults (snd r) = tl (faults c)).
  { subst r. destruct (completes 1 (faults c)) eqn:F.
    - rewrite (i2c_write_ok reg v c F). split; reflexivity.
    - destruct (i2c_write_fail reg v c F) as (e & _ & E).
      rewrite E. split; reflexivity. }
  destruct S as (S1 & S2).
  split; [exact S1|]. split; [exact S2|]. split; [|split; [|split]].
  - intros F. subst r. rewrite (i2c_write_ok reg v c F). cbn [fst snd].
    split; [reflexivity|]. split.
    + unfold chip_reg16. cbn [chip_regs]. rewrite reg_store_same.
      apply u16_idem.
    + intros r' Hr. unfold chip_reg16. cbn [chip_regs].
      rewrite reg_store_other; [reflexivity|].
      intros A. apply Hr, reg_addr_inj, A.
  - intros F. subst r. destruct (i2c_write_fail reg v c F) as (e & N & E).
    rewrite E. split; [exact N | reflexivity].
  - intros e rest F. apply (i2c_write_errno reg v c e rest F).
  - intros rest F. apply (i2c_write_short reg v c rest F).
Qed.

(** X3.  Write then read: when both transfers complete, reading a register
    just written returns the word written, reduced to 16 bits. *)
Theorem i2c_write_then_read (reg : rda5807_reg) (v : Z) (c : i2c_client) :
  completes 1 (faults c) = true ->
  completes 2 (tl (faults c)) = true ->
  let w := rda5807_i2c_write reg v c in
  fst w = 0 /\ fst (rda5807_i2c_read reg (snd w)) = u16 v.
Proof.
  intros F1 F2 w. subst w. rewrite (i2c_write_ok reg v c F1).
  cbn [fst snd]. split; [reflexivity|].
  rewrite i2c_read_ok by exact F2. cbn [fst].
  unfold chip_reg16. cbn [chip_regs]. rewrite reg_store_same.
  apply u16_idem.
Qed.

End AccessorOutcomes.

(** ** The read-modify-write primitive, in general *)

Lemma land_lnot_bits (v m i : Z) :
  0 <= i -> Z.land v (Z.lnot m) = 0 ->
  Z.testbit v i && negb (Z.testbit m i) = false.
Proof.
  intros Hi E. rewrite <- (Z.lnot_spec m i Hi), <- Z.land_spec, E.
  apply Z.bits_0.
Qed.

Lemma land_bits (a b i : Z) :
  Z.land a b = 0 -> Z.testbit a i && Z.testbit b i = false.
Proof. intros E. rewrite <- Z.land_spec, E. apply Z.bits_0. Qed.

Section UpdateOutcomes.

Context {K : kernel_headers}.

(** X4.  An update returns 0 or a negative value.  Whenever it does not
    return 0 the chip's registers are exactly as before; when the read does
    not complete, the read is the only transfer on the bus (nothing is
    written), and an errno raised by the bus on the read is returned as it
    came. *)
Theorem update_reg_failure (reg : rda5807_reg) (mask val : Z)
    (c : i2c_client) :
  let r := rda5807_update_reg reg mask val c in
  (fst r = 0 \/ fst r < 0) /\
  (fst r <> 0 -> chip_regs (snd r) = chip_regs c) /\
  (completes 2 (faults c) = false ->
     trace (snd r) = trace c ++ [ read_xfer c reg ]) /\
  (forall e rest, faults c = XferErr e :: rest -> fst r = Z.neg e).
Proof.
  intros r. subst r.
  destruct (completes 2 (faults c)) eqn:F1.
  - destruct (completes 1 (tl (faults c))) eqn:F2.
    + rewrite (update_reg_ok reg mask val c F1 F2). cbn [fst snd].
      split; [left; reflexivity|]. split; [intros N; contradiction|].
      split; [intros D; discriminate D|].
      intros e rest F. rewrite F in F1. discriminate F1.
    + destruct (update_reg_write_fails reg mask val c F1 F2) as (e & N & E).
      rewrite E. cbn [fst snd chip_regs].
      split; [right; exact N|]. split; [reflexivity|].
      split; [intros D; discriminate D|].
      intros e' rest F. rewrite F in F1. discriminate F1.
  - destruct (update_reg_read_fails reg mask val c F1) as (e & p & N & E).
    split; [|split; [|split]].
    + rewrite E. right. exact N.
    + rewrite E. reflexivity.
    + rewrite E. reflexivity.
    + intros e' rest F. rewrite update_reg_unfold.
      pose proof (i2c_read_errno reg c e' rest F) as Er.
      destruct (rda5807_i2c_read reg c) as [err c1]. cbn [fst] in Er.
      subst err. reflexivity.
Qed.

(** X5.  What a successful update writes, for any mask and value: bit [i]
    of the register (below 16) ends up set exactly when the value has it
    set, or the register had it set and the mask does not cover it.  The
    value's bits are written whether or not the mask covers them. *)
Theorem update_reg_bitwise (reg : rda5807_reg) (mask val : Z)
    (c : i2c_client) :
  fst (rda5807_update_reg reg mask val c) = 0 ->
  let c' := snd (rda5807_update_reg reg mask val c) in
  forall i, 0 <= i < 16 ->
    Z.testbit (chip_reg16 c' reg) i =
      Z.testbit val i
      || Z.testbit (chip_reg16 c reg) i && negb (Z.testbit mask i).
Proof.
  intros R c' i Hi.
  destruct (update_reg_effect reg mask val c R) as (M & _).
  fold c' in M. rewrite M, rmw_word_testbit by lia.
  replace (i <? 16) with true by (symmetry; apply Z.ltb_lt; lia).
  reflexivity.
Qed.

(** X6.  Updating twice with the same mask and value leaves the register as
    the first update left it. *)
Theorem update_reg_twice (reg : rda5807_reg) (mask val : Z)
    (c : i2c_client) :
  let r1 := rda5807_update_reg reg mask val c in
  let r2 := rda5807_update_reg reg mask val (snd r1) in
  fst r1 = 0 -> fst r2 = 0 ->
  chip_reg16 (snd r2) reg = chip_reg16 (snd r1) reg.
Proof.
  intros r1 r2 R1 R2.
  destruct (update_reg_effect reg mask val c R1) as (M1 & _).
  destruct (update_reg_effect reg mask val (snd r1) R2) as (M2 & _).
  fold r1 in M1. fold r2 in M2. rewrite M2, M1.
  apply Z.bits_inj'. intros i Hi. rewrite !rmw_word_testbit by exact Hi.
  destruct (i <? 16), (Z.testbit val i), (Z.testbit mask i),
    (Z.testbit (chip_reg16 c reg) i); reflexivity.
Qed.

Lemma update_reg_faults (reg : rda5807_reg) (mask val : Z) (c : i2c_client) :
  fst (rda5807_update_reg reg mask val c) = 0 ->
  faults (snd (rda5807_update_reg reg mask val c)) = tl (tl (faults c)).
Proof.
  intros R. destruct (update_reg_success reg mask val c R) as [F1 F2].
  rewrite (update_reg_ok reg mask val c F1 F2). reflexivity.
Qed.

Lemma update_reg_returns_0 (reg : rda5807_reg) (mask val : Z)
    (c : i2c_client) :
  completes 2 (faults c) = true ->
  completes 1 (tl (faults c)) = true ->
  fst (rda5807_update_reg reg mask val c) = 0.
Proof.
  intros F1 F2. rewrite (update_reg_ok reg mask val c F1 F2). reflexivity.
Qed.

(** X7.  Two updates of one register under masks that share no bit, each
    value inside its mask, give the same register in either order: when the
    two succeed in one order they succeed in the other, and each field ends
    up with its value while the bits outside both masks are kept. *)
Theorem update_reg_disjoint_commute (reg : rda5807_reg)
    (m1 v1 m2 v2 : Z) (c : i2c_client) :
  Z.land m1 m2 = 0 ->
  Z.land v1 (Z.lnot m1) = 0 ->
  Z.land v2 (Z.lnot m2) = 0 ->
  let a := rda5807_update_reg reg m1 v1 c in
  let ab := rda5807_update_reg reg m2 v2 (snd a) in
  let b := rda5807_update_reg reg m2 v2 c in
  let ba := rda5807_update_reg reg m1 v1 (snd b) in
  fst a = 0 -> fst ab = 0 ->
  fst b = 0 /\ fst ba = 0 /\
  chip_reg16 (snd ba) reg = chip_reg16 (snd ab) reg /\
  forall i, 0 <= i < 16 ->
    Z.testbit (chip_reg16 (snd ab) reg) i =
      Z.testbit v1 i || Z.testbit v2 i
      || Z.testbit (chip_reg16 c reg) i
         && negb (Z.testbit m1 i) && negb (Z.testbit m2 i).
Proof.
  intros D I1 I2 a ab b ba Ra Rab.
  destruct (update_reg_success reg m1 v1 c Ra) as [F1 F2].
  pose proof (update_reg_faults reg m1 v1 c Ra) as Fa. fold a in Fa.
  destruct (update_reg_success reg m2 v2 (snd a) Rab) as [F3 F4].
  rewrite Fa in F3, F4.
  assert (Rb : fst b = 0) by (apply update_reg_returns_0; assumption).
  pose proof (update_reg_faults reg m2 v2 c Rb) as Fb. fold b in Fb.
  assert (Rba : fst ba = 0).
  { apply update_reg_returns_0; rewrite Fb; assumption. }
  destruct (update_reg_effect reg m1 v1 c Ra) as (Ma & _).
  destruct (update_reg_effect reg m2 v2 (snd a) Rab) as (Mab & _).
  destruct (update_reg_effect reg m2 v2 c Rb) as (Mb & _).
  destruct (update_reg_effect reg m1 v1 (snd b) Rba) as (Mba & _).
  fold a in Ma. fold a ab in Mab. fold b in Mb. fold b ba in Mba.
  assert (Bab : forall i, 0 <= i ->
            Z.testbit (chip_reg16 (snd ab) reg) i =
              (i <? 16) &&
              (Z.testbit v1 i || Z.testbit v2 i
               || Z.testbit (chip_reg16 c reg) i
                  && negb (Z.testbit m1 i) && negb (Z.testbit m2 i))).
  { intros i Hi. rewrite Mab, Ma, !rmw_word_testbit by exact Hi.
    pose proof (land_bits m1 m2 i D) as Bd.
    pose proof (land_lnot_bits v1 m1 i Hi I1) as B1.
    pose proof (land_lnot_bits v2 m2 i Hi I2) as B2.
    destruct (i <? 16), (Z.testbit v1 i), (Z.testbit v2 i),
      (Z.testbit m1 i), (Z.testbit m2 i),
      (Z.testbit (chip_reg16 c reg) i);
      first [reflexivity | discriminate Bd | discriminate B1
            | discriminate B2]. }
  split; [exact Rb|]. split; [exact Rba|]. split.
  - apply Z.bits_inj'. intros i Hi.
    rewrite (Bab i Hi), Mba, Mb, !rmw_word_testbit by exact Hi.
    pose proof (land_bits m1 m2 i D) as Bd.
    pose proof (land_lnot_bits v1 m1 i Hi I1) as B1.
    pose proof (land_lnot_bits v2 m2 i Hi I2) as B2.
    destruct (i <? 16), (Z.testbit v1 i), (Z.testbit v2 i),
      (Z.testbit m1 i), (Z.testbit m2 i),
      (Z.testbit (chip_reg16 c reg) i);
      first [reflexivity | discriminate Bd | discriminate B1
            | discriminate B2].
  - intros i Hi. rewrite (Bab i) by lia.
    replace (i <? 16) with true by (symmetry; apply Z.ltb_lt; lia).
    reflexivity.
Qed.

End UpdateOutcomes.

(** ** What each encoder leaves in its register *)

Ltac cmp_cases :=
  repeat (match goal with
          | |- context [?a <=? ?b] => destruct (Z.leb_spec a b)
          | |- context [?a <? ?b] => destruct (Z.ltb_spec a b)
          | |- context [?a =? ?b] => destruct (Z.eqb_spec a b)
          end; try lia);
  cbn [andb orb negb];
  rewrite ?andb_true_r, ?andb_false_r, ?orb_true_r, ?orb_false_r;
  try reflexivity.

Ltac case_bits :=
  repeat match goal with
    | |- context [Z.testbit ?a ?i] => destruct (Z.testbit a i)
    end;
  reflexivity.

Section EncoderEffects.

Context {K : kernel_headers}.

Lemma update_single_bit (reg : rda5807_reg) (n : Z) (b : bool)
    (c : i2c_client) :
  0 <= n < 16 ->
  fst (rda5807_update_reg reg (BIT n) (if b then BIT n else 0) c) = 0 ->
  let c' := snd (rda5807_update_reg reg (BIT n) (if b then BIT n else 0) c) in
  Z.testbit (chip_reg16 c' reg) n = b /\
  forall i, 0 <= i -> i <> n ->
    Z.testbit (chip_reg16 c' reg) i = Z.testbit (chip_reg16 c reg) i.
Proof.
  intros Hn R c'.
  destruct (update_reg_effect _ _ _ _ R) as (M & _). fold c' in M.
  assert (V : forall i, Z.testbit (if b then BIT n else 0) i = b && (n =? i)).
  { intros i. destruct b; [apply testbit_BIT; lia | apply Z.bits_0]. }
  pose proof (u16_range (chip_regs c (reg_addr reg))) as Rg.
  fold (chip_reg16 c reg) in Rg.
  rewrite M. split.
  - rewrite rmw_word_testbit, V, testbit_BIT, Z.eqb_refl by lia.
    replace (n <? 16) with true by (symmetry; apply Z.ltb_lt; lia).
    cbn [negb andb]. rewrite andb_false_r, andb_true_r, orb_false_r.
    reflexivity.
  - intros i Hi Ni. rewrite rmw_word_testbit, V, testbit_BIT by lia.
    rewrite (small_testbit (chip_reg16 c reg) i Rg).
    destruct (Z.eqb_spec n i) as [E|_]; [lia|].
    rewrite andb_false_r. cbn [orb negb]. rewrite andb_true_r.
    destruct (i <? 16); reflexivity.
Qed.

(** X8.  When [rda5807_set_enable] returns 0, bit 0 of CTRL is set exactly
    when [enabled] is non-zero and every other bit of CTRL is as before. *)
Theorem set_enable_effect (enabled : Z) (c : i2c_client) :
  fst (rda5807_set_enable enabled c) = 0 ->
  let c' := snd (rda5807_set_enable enabled c) in
  Z.testbit (chip_reg16 c' RDA5807_REG_CTRL) 0 = negb (enabled =? 0) /\
  forall i, 0 < i ->
    Z.testbit (chip_reg16 c' RDA5807_REG_CTRL) i
      = Z.testbit (chip_reg16 c RDA5807_REG_CTRL) i.
Proof.
  unfold rda5807_set_enable, RDA5807_MASK_CTRL_ENABLE.
  replace (if enabled =? 0 then 0 else BIT 0)
    with (if negb (enabled =? 0) then BIT 0 else 0)
    by (destruct (enabled =? 0); reflexivity).
  intros R.
  destruct (update_single_bit RDA5807_REG_CTRL 0 _ c ltac:(lia) R) as [B O].
  split; [exact B|]. intros i Hi. apply O; lia.
Qed.

(** X9.  When [rda5807_set_preemphasis] returns 0, bit 11 of IOCFG is set
    exactly when the argument is [V4L2_PREEMPHASIS_50_uS] and every other
    bit of IOCFG is as before. *)
Theorem set_preemphasis_effect (preemp : Z) (c : i2c_client) :
  fst (rda5807_set_preemphasis preemp c) = 0 ->
  let c' := snd (rda5807_set_preemphasis preemp c) in
  Z.testbit (chip_reg16 c' RDA5807_REG_IOCFG) 11
    = (preemp =? V4L2_PREEMPHASIS_50_uS) /\
  forall i, 0 <= i -> i <> 11 ->
    Z.testbit (chip_reg16 c' RDA5807_REG_IOCFG) i
      = Z.testbit (chip_reg16 c RDA5807_REG_IOCFG) i.
Proof.
  unfold rda5807_set_preemphasis, RDA5807_MASK_DEEMPHASIS.
  intros R.
  apply (update_single_bit RDA5807_REG_IOCFG 11 _ c ltac:(lia) R).
Qed.

(** X10.  For a volume between 0 and 15, when [rda5807_set_volume] returns
    0 the low four bits of INTM_THRESH_VOL read back as the volume and
    every bit from bit 4 up is as before. *)
Theorem set_volume_effect (volume : Z) (c : i2c_client) :
  0 <= volume <= 15 ->
  fst (rda5807_set_volume volume c) = 0 ->
  let c' := snd (rda5807_set_volume volume c) in
  Z.land (chip_reg16 c' RDA5807_REG_INTM_THRESH_VOL) RDA5807_MASK_VOLUME_DAC
    = volume /\
  forall i, 4 <= i ->
    Z.testbit (chip_reg16 c' RDA5807_REG_INTM_THRESH_VOL) i
      = Z.testbit (chip_reg16 c RDA5807_REG_INTM_THRESH_VOL) i.
Proof.
  intros Hv R c'. unfold rda5807_set_volume in R, c'.
  destruct (update_reg_effect _ _ _ _ R) as (M & _). fold c' in M.
  pose proof (u16_range
                (chip_regs c (reg_addr RDA5807_REG_INTM_THRESH_VOL))) as Rg.
  fold (chip_reg16 c RDA5807_REG_INTM_THRESH_VOL) in Rg.
  assert (Mk : forall i, 0 <= i ->
            Z.testbit RDA5807_MASK_VOLUME_DAC i = (i <? 4)).
  { intros i Hi. unfold RDA5807_MASK_VOLUME_DAC, RDA5807_SHIFT_VOLUME_DAC.
    rewrite Z.shiftl_0_r. apply (Z.testbit_ones_nonneg 4); lia. }
  rewrite M. unfold RDA5807_SHIFT_VOLUME_DAC. rewrite Z.shiftl_0_r. split.
  - apply Z.bits_inj'. intros i Hi.
    rewrite Z.land_spec, rmw_word_testbit, (Mk i Hi) by exact Hi.
    rewrite (testbit_bounded 4 volume i) by lia.
    destruct (Z.ltb_spec i 4); destruct (Z.ltb_spec i 16); try lia;
      cbn [andb orb negb];
      rewrite ?andb_false_r, ?andb_true_r, ?orb_false_r;
      reflexivity.
  - intros i Hi. rewrite rmw_word_testbit, (Mk i) by lia.
    rewrite (testbit_bounded 4 volume i) by lia.
    rewrite (small_testbit (chip_reg16 c RDA5807_REG_INTM_THRESH_VOL) i Rg).
    destruct (Z.ltb_spec i 4); [lia|].
    cbn [andb orb negb]. rewrite andb_true_r.
    destruct (i <? 16); reflexivity.
Qed.

(** X11.  For a frequency of the band, when [rda5807_set_frequency] returns
    0 the CHAN register reads back with the channel index in its WRCHAN
    field, 2 in its BAND field, 2 in its SPACE field and the TUNE bit set;
    bit 5, the one bit the encoder's mask leaves out, is as before. *)
Theorem set_frequency_effect (f : Z) (c : i2c_client) :
  76000 <= f <= 108000 ->
  fst (rda5807_set_frequency f c) = 0 ->
  let w := chip_reg16 (snd (rda5807_set_frequency f c)) RDA5807_REG_CHAN in
  Z.shiftr (Z.land w RDA5807_MASK_CHAN_WRCHAN) RDA5807_SHIFT_CHAN_WRCHAN
    = (f - 76000 + 25) / 50 /\
  Z.shiftr (Z.land w RDA5807_MASK_CHAN_BAND) RDA5807_SHIFT_CHAN_BAND = 2 /\
  Z.shiftr (Z.land w RDA5807_MASK_CHAN_SPACE) RDA5807_SHIFT_CHAN_SPACE = 2 /\
  Z.land w RDA5807_MASK_CHAN_TUNE = RDA5807_MASK_CHAN_TUNE /\
  Z.testbit w 5 = Z.testbit (chip_reg16 c RDA5807_REG_CHAN) 5.
Proof.
  intros H. rewrite (set_frequency_in_band f c H).
  destruct (wrchan_of_khz_in_band f H) as [E B]. rewrite <- E.
  set (idx := wrchan_of_khz f) in *. intros R w.
  destruct (update_reg_effect _ _ _ _ R) as (M & _). fold w in M.
  set (cur := chip_reg16 c RDA5807_REG_CHAN) in *.
  assert (W : forall i, 0 <= i ->
            Z.testbit w i =
              (i <? 16) &&
              ((i =? 1) || (i =? 3) || (i =? 4)
               || (6 <=? i) && Z.testbit idx (i - 6)
               || (i =? 5) && Z.testbit cur i)).
  { intros i Hi. rewrite M, rmw_word_testbit by exact Hi.
    unfold chan_word, chan_mask, RDA5807_MASK_CHAN_WRCHAN,
      RDA5807_MASK_CHAN_TUNE, RDA5807_MASK_CHAN_BAND,
      RDA5807_MASK_CHAN_SPACE, RDA5807_SHIFT_CHAN_WRCHAN,
      RDA5807_SHIFT_CHAN_BAND, RDA5807_SHIFT_CHAN_SPACE.
    push_testbit. rewrite (testbit_bounded 10 idx (i - 6)) by lia.
    cmp_cases; case_bits. }
  split; [|split; [|split; [|split]]].
  - apply Z.bits_inj'. intros i Hi.
    unfold RDA5807_MASK_CHAN_WRCHAN, RDA5807_SHIFT_CHAN_WRCHAN.
    rewrite Z.shiftr_spec, Z.land_spec, W by lia.
    push_testbit. replace (i + 6 - 6) with i by lia.
    rewrite (testbit_bounded 10 idx i) by lia.
    cmp_cases; case_bits.
  - apply Z.bits_inj'. intros i Hi.
    unfold RDA5807_MASK_CHAN_BAND, RDA5807_SHIFT_CHAN_BAND.
    rewrite Z.shiftr_spec, Z.land_spec, W by lia.
    push_testbit. rewrite (testbit_bounded 10 idx (i + 2 - 6)) by lia.
    cmp_cases; case_bits.
  - apply Z.bits_inj'. intros i Hi.
    unfold RDA5807_MASK_CHAN_SPACE, RDA5807_SHIFT_CHAN_SPACE.
    rewrite Z.shiftr_spec, Z.land_spec, W by lia.
    push_testbit. rewrite (testbit_bounded 10 idx (i + 0 - 6)) by lia.
    cmp_cases; case_bits.
  - apply Z.bits_inj'. intros i Hi.
    unfold RDA5807_MASK_CHAN_TUNE.
    rewrite Z.land_spec, W by lia. push_testbit.
    cmp_cases; case_bits.
  - rewrite W by lia. reflexivity.
Qed.

End EncoderEffects.

(** ** The channel grid *)

(** X12.  The channel expression of [rda5807_set_frequency] on the band:
    a frequency on the 50 kHz grid, [76000 + 50 * k] with [k] from 0 to 640,
    gets index [k]; decoding any index of the band gives a frequency of the
    band which encodes to the same index; and the index grows with the
    frequency. *)
Theorem channel_index_grid :
  (forall k, 0 <= k <= 640 -> wrchan_of_khz (76000 + 50 * k) = k) /\
  (forall f, 76000 <= f <= 108000 ->
     76000 <= wrchan_of_khz f * 50 + 76000 <= 108000 /\
     wrchan_of_khz (wrchan_of_khz f * 50 + 76000) = wrchan_of_khz f) /\
  (forall f g, 76000 <= f -> f <= g -> g <= 108000 ->
     wrchan_of_khz f <= wrchan_of_khz g).
Proof.
  assert (G : forall k, 0 <= k <= 640 -> wrchan_of_khz (76000 + 50 * k) = k).
  { intros k Hk.
    assert (B : RDA5807_FREQ_MIN_KHZ <= 76000 + 50 * k
                <= RDA5807_FREQ_MAX_KHZ)
      by (unfold RDA5807_FREQ_MIN_KHZ, RDA5807_FREQ_MAX_KHZ; lia).
    destruct (wrchan_of_khz_in_band _ B) as [E _]. rewrite E.
    replace (76000 + 50 * k - 76000 + 25) with (k * 50 + 25) by lia.
    rewrite Z.div_add_l by lia. change (25 / 50) with 0. lia. }
  split; [exact G|]. split.
  - intros f Hf.
    assert (B : RDA5807_FREQ_MIN_KHZ <= f <= RDA5807_FREQ_MAX_KHZ)
      by (unfold RDA5807_FREQ_MIN_KHZ, RDA5807_FREQ_MAX_KHZ; lia).
    destruct (wrchan_of_khz_in_band f B) as [_ R].
    split; [lia|].
    replace (wrchan_of_khz f * 50 + 76000)
      with (76000 + 50 * wrchan_of_khz f) by lia.
    apply G. exact R.
  - intros f g Hf Hfg Hg.
    assert (Bf : RDA5807_FREQ_MIN_KHZ <= f <= RDA5807_FREQ_MAX_KHZ)
      by (unfold RDA5807_FREQ_MIN_KHZ, RDA5807_FREQ_MAX_KHZ; lia).
    assert (Bg : RDA5807_FREQ_MIN_KHZ <= g <= RDA5807_FREQ_MAX_KHZ)
      by (unfold RDA5807_FREQ_MIN_KHZ, RDA5807_FREQ_MAX_KHZ; lia).
    destruct (wrchan_of_khz_in_band f Bf) as [Ef _].
    destruct (wrchan_of_khz_in_band g Bg) as [Eg _].
    rewrite Ef, Eg. apply Z.div_le_mono; lia.
Qed.

(** ** Entry points: argument checks and the mute control *)

Section EntryPoints.

Context {K : kernel_headers}.

(** X13.  Each entry point checks its arguments before it touches the bus:
    a control identifier that is none of the three, a tuner or audio index
    other than 0, a tuner number other than 0 or a type other than radio
    gives [-EINVAL], a negative value, with the client and the caller's
    structure left as they were. *)
Theorem invalid_arguments_rejected (c : i2c_client) :
  - EINVAL < 0 /\
  (forall ctrl,
     id ctrl <> V4L2_CID_AUDIO_MUTE ->
     id ctrl <> V4L2_CID_AUDIO_VOLUME ->
     id ctrl <> V4L2_CID_TUNE_PREEMPHASIS ->
     rda5807_s_ctrl ctrl c = (- EINVAL, c)) /\
  (forall a, index a <> 0 ->
     rda5807_vidioc_g_tuner a c = ((- EINVAL, a), c)) /\
  (forall a, fr_tuner a <> 0 \/ fr_type a <> V4L2_TUNER_RADIO ->
     rda5807_vidioc_s_frequency a c = (- EINVAL, c)) /\
  (forall a, au_index a <> 0 ->
     rda5807_vidioc_g_audio a = (- EINVAL, a)).
Proof.
  pose proof EINVAL_pos as P. split; [lia|].
  split; [|split; [|split]].
  - intros ctrl N1 N2 N3. unfold rda5807_s_ctrl.
    apply Z.eqb_neq in N1, N2, N3. rewrite N1, N2, N3. reflexivity.
  - intros a N. unfold rda5807_vidioc_g_tuner.
    apply Z.eqb_neq in N. rewrite N. reflexivity.
  - intros a [N|N]; unfold rda5807_vidioc_s_frequency;
      apply Z.eqb_neq in N.
    + rewrite N. reflexivity.
    + rewrite N. destruct (fr_tuner a =? 0); reflexivity.
  - intros a N. unfold rda5807_vidioc_g_audio.
    apply Z.eqb_neq in N. rewrite N. reflexivity.
Qed.

Lemma s_ctrl_mute_unfold (v : Z) (c : i2c_client) :
  let r1 :=
    rda5807_update_reg RDA5807_REG_CTRL (BIT 0)
      (if v =? 0 then BIT 0 else 0) c in
  let r2 :=
    rda5807_update_reg RDA5807_REG_CTRL (BIT 14)
      (if v =? 0 then BIT 14 else 0) (snd r1) in
  rda5807_s_ctrl (mk_ctrl V4L2_CID_AUDIO_MUTE v) c
    = (if fst r1 =? 0 then fst r2 else fst r1, snd r2).
Proof.
  intros r1 r2. subst r1 r2.
  unfold rda5807_s_ctrl, bind, ret. cbn [id val]. rewrite Z.eqb_refl.
  unfold rda5807_set_enable, rda5807_set_mute, c_not,
    RDA5807_MASK_CTRL_ENABLE, RDA5807_MASK_CTRL_DMUTE.
  replace (if (if v =? 0 then 1 else 0) =? 0 then 0 else BIT 0)
    with (if v =? 0 then BIT 0 else 0)
    by (destruct (v =? 0); reflexivity).
  destruct (rda5807_update_reg RDA5807_REG_CTRL (BIT 0)
              (if v =? 0 then BIT 0 else 0) c) as [err1 c1].
  cbn [fst snd].
  destruct (rda5807_update_reg RDA5807_REG_CTRL (BIT 14)
              (if v =? 0 then BIT 14 else 0) c1) as [err2 c2].
  reflexivity.
Qed.

(** X14.  When the mute control returns 0, both of its updates went
    through: bits 0 (ENABLE) and 14 (DMUTE) of CTRL are both set when the
    control value is 0 (unmuted) and both clear otherwise, every other bit
    of CTRL is as before, and four transfers were put on the bus. *)
Theorem s_ctrl_mute_effect (v : Z) (c : i2c_client) :
  fst (rda5807_s_ctrl (mk_ctrl V4L2_CID_AUDIO_MUTE v) c) = 0 ->
  let c' := snd (rda5807_s_ctrl (mk_ctrl V4L2_CID_AUDIO_MUTE v) c) in
  Z.testbit (chip_reg16 c' RDA5807_REG_CTRL) 0 = (v =? 0) /\
  Z.testbit (chip_reg16 c' RDA5807_REG_CTRL) 14 = (v =? 0) /\
  (forall i, 0 <= i -> i <> 0 -> i <> 14 ->
     Z.testbit (chip_reg16 c' RDA5807_REG_CTRL) i
       = Z.testbit (chip_reg16 c RDA5807_REG_CTRL) i) /\
  length (trace c') = (length (trace c) + 4)%nat.
Proof.
  rewrite s_ctrl_mute_unfold. cbn [fst snd].
  set (r1 := rda5807_update_reg RDA5807_REG_CTRL (BIT 0) _ c).
  set (r2 := rda5807_update_reg RDA5807_REG_CTRL (BIT 14) _ (snd r1)).
  intros R.
  assert (R1 : fst r1 = 0).
  { destruct (Z.eqb_spec (fst r1) 0) as [E|N]; [exact E | contradiction]. }
  assert (R2 : fst r2 = 0).
  { rewrite R1 in R. exact R. }
  destruct (update_single_bit RDA5807_REG_CTRL 0 (v =? 0) c
              ltac:(lia) R1) as [B1 O1].
  destruct (update_single_bit RDA5807_REG_CTRL 14 (v =? 0) (snd r1)
              ltac:(lia) R2) as [B2 O2].
  fold r1 in B1, O1. fold r1 r2 in B2, O2.
  destruct (update_reg_effect _ _ _ _ R1) as (_ & T1 & _).
  destruct (update_reg_effect _ _ _ _ R2) as (_ & T2 & _).
  fold r1 in T1. fold r1 r2 in T2.
  split; [|split; [|split]].
  - rewrite O2 by lia. exact B1.
  - exact B2.
  - intros i Hi N0 N14. rewrite O2, O1 by lia. reflexivity.
  - rewrite T2, T1, !length_app. cbn [length]. lia.
Qed.

End EntryPoints.

(** ** The tuner query, whatever the bus does *)

Section TunerOutcomes.

Context {K : kernel_headers}.

Lemma g_tuner_first_read_fails (a : v4l2_tuner) (c : i2c_client) :
  index a = 0 ->
  completes 2 (faults c) = false ->
  exists e p,
    e < 0 /\
    rda5807_vidioc_g_tuner a c =
      ((e, a),
       mk_client (addr c) (chip_regs c) p (tl (faults c))
         (trace c ++ [ read_xfer c RDA5807_REG_SEEK_RESULT ])).
Proof.
  intros I F1. unfold rda5807_vidioc_g_tuner, bind, ret.
  rewrite I. cbn [Z.eqb negb].
  destruct (i2c_read_fail RDA5807_REG_SEEK_RESULT c F1) as (e & p & N & E).
  exists e, p. split; [exact N|]. rewrite E.
  replace (e <? 0) with true by (symmetry; apply Z.ltb_lt; exact N).
  reflexivity.
Qed.

Lemma g_tuner_second_read_fails (a : v4l2_tuner) (c : i2c_client) :
  index a = 0 ->
  completes 2 (faults c) = true ->
  completes 2 (tl (faults c)) = false ->
  exists e p,
    e < 0 /\
    rda5807_vidioc_g_tuner a c =
      ((e, a),
       mk_client (addr c) (chip_regs c) p (tl (tl (faults c)))
         (trace c ++ [ read_xfer c RDA5807_REG_SEEK_RESULT;
                       read_xfer c RDA5807_REG_SIGNAL ])).
Proof.
  intros I F1 F2. unfold rda5807_vidioc_g_tuner, bind, ret.
  rewrite I. cbn [Z.eqb negb]. rewrite (i2c_read_ok _ c F1).
  pose proof (u16_range (chip_regs c (reg_addr RDA5807_REG_SEEK_RESULT)))
    as R1.
  fold (chip_reg16 c RDA5807_REG_SEEK_RESULT) in R1.
  replace (chip_reg16 c RDA5807_REG_SEEK_RESULT <? 0) with false
    by (symmetry; apply Z.ltb_ge; lia).
  set (c1 := mk_client _ _ _ _ _).
  destruct (i2c_read_fail RDA5807_REG_SIGNAL c1 F2) as (e & p & N & E).
  exists e, p. split; [exact N|]. rewrite E.
  replace (e <? 0) with true by (symmetry; apply Z.ltb_lt; exact N).
  subst c1. cbn [addr chip_regs faults trace]. unfold read_xfer at 2.
  cbn [addr]. rewrite <- app_assoc. reflexivity.
Qed.

Lemma g_tuner_both_reads (a : v4l2_tuner) (c : i2c_client) :
  index a = 0 ->
  completes 2 (faults c) = true ->
  completes 2 (tl (faults c)) = true ->
  rda5807_vidioc_g_tuner a c =
    ((0,
      mk_tuner 0 "FM" V4L2_TUNER_RADIO
        (Z.lor V4L2_TUNER_CAP_LOW V4L2_TUNER_CAP_STEREO)
        (RDA5807_FREQ_MIN_KHZ * 16) (RDA5807_FREQ_MAX_KHZ * 16)
        (tuner_rxsubchans (chip_reg16 c RDA5807_REG_SEEK_RESULT))
        V4L2_TUNER_MODE_STEREO
        (tuner_signal (chip_reg16 c RDA5807_REG_SIGNAL))
        0),
     mk_client (addr c) (chip_regs c) (reg_addr RDA5807_REG_SIGNAL)
       (tl (tl (faults c)))
       (trace c ++ [ read_xfer c RDA5807_REG_SEEK_RESULT;
                     read_xfer c RDA5807_REG_SIGNAL ])).
Proof.
  intros I F1 F2. unfold rda5807_vidioc_g_tuner, bind, ret.
  rewrite I. cbn [Z.eqb negb]. rewrite (i2c_read_ok _ c F1).
  pose proof (u16_range (chip_regs c (reg_addr RDA5807_REG_SEEK_RESULT)))
    as R1.
  fold (chip_reg16 c RDA5807_REG_SEEK_RESULT) in R1.
  replace (chip_reg16 c RDA5807_REG_SEEK_RESULT <? 0) with false
    by (symmetry; apply Z.ltb_ge; lia).
  set (c1 := mk_client _ _ _ _ _).
  rewrite (i2c_read_ok _ c1 F2).
  assert (S : chip_reg16 c1 RDA5807_REG_SIGNAL
              = chip_reg16 c RDA5807_REG_SIGNAL) by reflexivity.
  rewrite S.
  pose proof (u16_range (chip_regs c (reg_addr RDA5807_REG_SIGNAL))) as R2.
  fold (chip_reg16 c RDA5807_REG_SIGNAL) in R2.
  replace (chip_reg16 c RDA5807_REG_SIGNAL <? 0) with false
    by (symmetry; apply Z.ltb_ge; lia).
  rewrite (u16_small _ R1).
  subst c1. cbn [addr chip_regs faults trace]. unfold read_xfer at 2.
  cbn [addr]. rewrite <- app_assoc. reflexivity.
Qed.

(** X15.  The tuner query never changes a register of the chip, and it
    returns 0 or a negative value.  When it does not return 0 the caller's
    structure is handed back as it came in; when the first read does not
    complete the second is not attempted. *)
Theorem g_tuner_failure (a : v4l2_tuner) (c : i2c_client) :
  let r := rda5807_vidioc_g_tuner a c in
  chip_regs (snd r) = chip_regs c /\
  (fst (fst r) = 0 \/ fst (fst r) < 0) /\
  (fst (fst r) <> 0 -> snd (fst r) = a) /\
  (index a = 0 -> completes 2 (faults c) = false ->
     trace (snd r) = trace c ++ [ read_xfer c RDA5807_REG_SEEK_RESULT ]).
Proof.
  intros r. subst r. pose proof EINVAL_pos as P.
  destruct (Z.eq_dec (index a) 0) as [I|I].
  2:{ assert (E : rda5807_vidioc_g_tuner a c = ((- EINVAL, a), c)).
      { unfold rda5807_vidioc_g_tuner. apply Z.eqb_neq in I. rewrite I.
        reflexivity. }
      rewrite E. cbn [fst snd].
      split; [reflexivity|]. split; [right; lia|].
      split; [reflexivity|]. intros I0. contradiction. }
  destruct (completes 2 (faults c)) eqn:F1.
  - destruct (completes 2 (tl (faults c))) eqn:F2.
    + rewrite (g_tuner_both_reads a c I F1 F2). cbn [fst snd chip_regs].
      split; [reflexivity|]. split; [left; reflexivity|].
      split; [intros N; contradiction|]. intros _ D. discriminate D.
    + destruct (g_tuner_second_read_fails a c I F1 F2) as (e & p & N & E).
      rewrite E. cbn [fst snd chip_regs].
      split; [reflexivity|]. split; [right; exact N|].
      split; [reflexivity|]. intros _ D. discriminate D.
  - destruct (g_tuner_first_read_fails a c I F1) as (e & p & N & E).
    rewrite E. cbn [fst snd chip_regs trace].
    split; [reflexivity|]. split; [right; exact N|].
    split; reflexivity.
Qed.

Lemma g_tuner_success_inv (a : v4l2_tuner) (c : i2c_client) :
  fst (fst (rda5807_vidioc_g_tuner a c)) = 0 ->
  index a = 0 /\
  completes 2 (faults c) = true /\
  completes 2 (tl (faults c)) = true.
Proof.
  intros R. pose proof EINVAL_pos as P.
  destruct (Z.eq_dec (index a) 0) as [I|I].
  2:{ unfold rda5807_vidioc_g_tuner in R. apply Z.eqb_neq in I.
      rewrite I in R. cbn in R. lia. }
  split; [exact I|].
  destruct (completes 2 (faults c)) eqn:F1.
  - destruct (completes 2 (tl (faults c))) eqn:F2; [auto|].
    destruct (g_tuner_second_read_fails a c I F1 F2) as (e & p & N & E).
    rewrite E in R. cbn [fst] in R. lia.
  - destruct (g_tuner_first_read_fails a c I F1) as (e & p & N & E).
    rewrite E in R. cbn [fst] in R. lia.
Qed.

(** X16.  When the tuner query returns 0 the structure it fills in has
    index 0, name "FM", the radio type, the band limits 76000 * 16 and
    108000 * 16 in units of 1/16 kHz, stereo audio mode and no AFC; the
    sub-channel word is the mono flag, the stereo flag or both; and the
    signal level is a multiple of 512 between 0 and 65024. *)
Theorem g_tuner_descriptor (a : v4l2_tuner) (c : i2c_client) :
  fst (fst (rda5807_vidioc_g_tuner a c)) = 0 ->
  let a' := snd (fst (rda5807_vidioc_g_tuner a c)) in
  index a' = 0 /\
  name a' = "FM"%string /\
  type a' = V4L2_TUNER_RADIO /\
  capability a' = Z.lor V4L2_TUNER_CAP_LOW V4L2_TUNER_CAP_STEREO /\
  rangelow a' = 1216000 /\
  rangehigh a' = 1728000 /\
  audmode a' = V4L2_TUNER_MODE_STEREO /\
  afc a' = 0 /\
  (rxsubchans a' = V4L2_TUNER_SUB_MONO \/
   rxsubchans a' = V4L2_TUNER_SUB_STEREO \/
   rxsubchans a' = Z.lor V4L2_TUNER_SUB_MONO V4L2_TUNER_SUB_STEREO) /\
  0 <= signal a' <= 65024 /\
  signal a' mod 512 = 0.
Proof.
  intros R a'. destruct (g_tuner_success_inv a c R) as (I & F1 & F2).
  subst a'. rewrite (g_tuner_both_reads a c I F1 F2).
  cbn [fst snd index name type capability rangelow rangehigh rxsubchans
         audmode signal afc].
  repeat (split; [reflexivity|]).
  split.
  - rewrite tuner_rxsubchans_cases.
    destruct (bit_set _ RDA5807_MASK_SEEKRES_COMPLETE
              && negb (bit_set _ RDA5807_MASK_SEEKRES_FAIL));
      [|right; right; reflexivity].
    destruct (bit_set _ RDA5807_MASK_SEEKRES_STEREO);
      [right; left; reflexivity | left; reflexivity].
  - pose proof (u16_range (chip_regs c (reg_addr RDA5807_REG_SIGNAL))) as Rg.
    fold (chip_reg16 c RDA5807_REG_SIGNAL) in Rg.
    destruct (tuner_signal_rssi _ Rg) as (S & _ & B).
    rewrite S. change (2 ^ 9) with 512. change (2 ^ 7) with 128 in B.
    split; [lia|]. apply Z.mod_mul. lia.
Qed.

End TunerOutcomes.

(** ** The frequency ioctl: units and their 32-bit product *)

Section FrequencyIoctl.

Context {K : kernel_headers}.

Lemma s_frequency_delegates (a : v4l2_frequency) (c : i2c_client) :
  fr_tuner a = 0 ->
  fr_type a = V4L2_TUNER_RADIO ->
  rda5807_vidioc_s_frequency a c =
    rda5807_set_frequency (u32 (u32 (fr_frequency a) * 625) / 10000) c.
Proof.
  intros T Ty. unfold rda5807_vidioc_s_frequency.
  rewrite T, Ty, !Z.eqb_refl. reflexivity.
Qed.

(** X17.  As long as the product by 625 fits 32 bits (a frequency of at most
    6871947 sixteenths of a kHz), the ioctl tunes to the frequency divided
    by 16: it rejects the request with [-ERANGE] and no bus traffic below
    1216000 and above 1728015, and hands every request in between to the
    update of CHAN.  The limits the tuner query reports, 1216000 and
    1728000, are accepted. *)
Theorem s_frequency_accepted_range (a : v4l2_frequency) (c : i2c_client) :
  fr_tuner a = 0 ->
  fr_type a = V4L2_TUNER_RADIO ->
  0 <= fr_frequency a <= 6871947 ->
  let khz := fr_frequency a / 16 in
  rda5807_vidioc_s_frequency a c = rda5807_set_frequency khz c /\
  (fr_frequency a < 1216000 \/ 1728015 < fr_frequency a ->
     rda5807_vidioc_s_frequency a c = (- ERANGE, c)) /\
  (1216000 <= fr_frequency a <= 1728015 ->
     rda5807_vidioc_s_frequency a c =
       rda5807_update_reg RDA5807_REG_CHAN chan_mask
         (chan_word ((khz - 76000 + 25) / 50)) c).
Proof.
  intros T Ty R khz.
  assert (E : u32 (u32 (fr_frequency a) * 625) / 10000 = khz).
  { rewrite (u32_small (fr_frequency a)) by lia.
    rewrite u32_small by lia. subst khz.
    replace 10000 with (625 * 16) by reflexivity.
    rewrite (Z.mul_comm (fr_frequency a) 625).
    apply Z.div_mul_cancel_l; lia. }
  rewrite (s_frequency_delegates a c T Ty), E.
  split; [reflexivity|]. split.
  - intros H. apply set_frequency_rejects.
    + subst khz. split; [apply Z.div_pos; lia|].
      apply Z.div_lt_upper_bound; lia.
    + unfold RDA5807_FREQ_MIN_KHZ, RDA5807_FREQ_MAX_KHZ. subst khz.
      destruct H as [H|H].
      * left. apply Z.div_lt_upper_bound; lia.
      * right. apply Z.lt_le_trans with (1728016 / 16); [reflexivity|].
        apply Z.div_le_mono; lia.
  - intros H.
    assert (B : RDA5807_FREQ_MIN_KHZ <= khz <= RDA5807_FREQ_MAX_KHZ).
    { unfold RDA5807_FREQ_MIN_KHZ, RDA5807_FREQ_MAX_KHZ. subst khz. split.
      - apply Z.div_le_lower_bound; lia.
      - apply Z.lt_succ_r, Z.div_lt_upper_bound; lia. }
    rewrite (set_frequency_in_band khz c B).
    destruct (wrchan_of_khz_in_band khz B) as [Ew _]. rewrite Ew.
    reflexivity.
Qed.

(** X18.  The product by 625 is taken in 32 bits.  A request between
    8087948 and 8599963 sixteenths of a kHz (505 to 537 MHz) wraps into the
    band: the ioctl does not reject it but tunes to
    [(frequency * 625 - 2^32) / 10000] kHz, a frequency of the band. *)
Theorem s_frequency_wraps_into_band (a : v4l2_frequency) (c : i2c_client) :
  fr_tuner a = 0 ->
  fr_type a = V4L2_TUNER_RADIO ->
  8087948 <= fr_frequency a <= 8599963 ->
  let khz := (fr_frequency a * 625 - 2 ^ 32) / 10000 in
  76000 <= khz <= 108000 /\
  rda5807_vidioc_s_frequency a c =
    rda5807_update_reg RDA5807_REG_CHAN chan_mask
      (chan_word ((khz - 76000 + 25) / 50)) c.
Proof.
  intros T Ty R khz.
  assert (E : u32 (u32 (fr_frequency a) * 625) / 10000 = khz).
  { rewrite (u32_small (fr_frequency a)) by lia. subst khz. f_equal.
    unfold u32.
    replace (fr_frequency a * 625)
      with (fr_frequency a * 625 - 2 ^ 32 + 1 * 2 ^ 32) at 1 by lia.
    rewrite Z.mod_add by lia. apply Z.mod_small. lia. }
  assert (B : 76000 <= khz <= 108000).
  { subst khz. split.
    - apply Z.div_le_lower_bound; lia.
    - apply Z.lt_succ_r, Z.div_lt_upper_bound; lia. }
  split; [exact B|].
  rewrite (s_frequency_delegates a c T Ty), E.
  rewrite (set_frequency_in_band khz c B).
  destruct (wrchan_of_khz_in_band khz B) as [Ew _]. rewrite Ew.
  reflexivity.
Qed.

End FrequencyIoctl.

(** ** Probe: what it leaves behind on each path *)

Section ProbeOutcomes.

Context {K : kernel_headers}.

(** X19.  Probe returns 0 only when every step went through: the chip-ID
    word has high byte 0x58, the allocation succeeded, the control handler
    reported no error, the registration of the video device did not fail,
    and the setup of the controls, run on the client the chip-ID read left,
    did not return a negative value; the client probe leaves is the one the
    setup left.  The host then saw exactly: the allocation, the handler
    initialised for 3 controls, the mute control (0..1, step 1, default 1),
    the volume control (0..15, step 1, default 8), the pre-emphasis menu,
    the two back-pointers, the registration of a radio device and the setup
    of the controls; nothing was freed or unregistered. *)
Theorem probe_success (env : host_env) (c : i2c_client) :
  fst (fst (rda5807_i2c_probe env c)) = 0 ->
  let c1 := snd (rda5807_i2c_read RDA5807_REG_CHIPID c) in
  let setup := v4l2_ctrl_handler_setup env rda5807_s_ctrl c1 in
  completes 2 (faults c) = true /\
  chip_reg16 c RDA5807_REG_CHIPID / 2 ^ 8 = 0x58 /\
  kzalloc_ok env = true /\
  ctrl_handler_error env = 0 /\
  0 <= video_register_device env /\
  0 <= fst setup /\
  snd (rda5807_i2c_probe env c) = snd setup /\
  snd (fst (rda5807_i2c_probe env c)) =
    [ Kzalloc;
      V4l2CtrlHandlerInit 3;
      V4l2CtrlNewStd V4L2_CID_AUDIO_MUTE 0 1 1 1;
      V4l2CtrlNewStd V4L2_CID_AUDIO_VOLUME 0 15 1 8;
      V4l2CtrlNewStdMenu V4L2_CID_TUNE_PREEMPHASIS V4L2_PREEMPHASIS_75_uS
        (BIT V4L2_PREEMPHASIS_DISABLED) V4L2_PREEMPHASIS_50_uS;
      I2cSetClientdata;
      VideoSetDrvdata;
      VideoRegisterDevice VFL_TYPE_RADIO (-1);
      V4l2CtrlHandlerSetup ].
Proof.
  pose proof ENODEV_pos as P1. pose proof ENOMEM_pos as P2.
  unfold rda5807_i2c_probe, bind, ret.
  destruct (completes 2 (faults c)) eqn:F.
  2:{ destruct (i2c_read_fail RDA5807_REG_CHIPID c F) as (e & p & N & E).
      rewrite E.
      replace (e <? 0) with true by (symmetry; apply Z.ltb_lt; exact N).
      cbn [fst]. lia. }
  rewrite (i2c_read_ok _ c F). cbn [snd].
  pose proof (u16_range (chip_regs c (reg_addr RDA5807_REG_CHIPID))) as R.
  fold (chip_reg16 c RDA5807_REG_CHIPID) in R.
  replace (chip_reg16 c RDA5807_REG_CHIPID <? 0) with false
    by (symmetry; apply Z.ltb_ge; lia).
  rewrite (chipid_high_byte _ R).
  destruct (Z.eqb_spec (chip_reg16 c RDA5807_REG_CHIPID / 2 ^ 8) 0x58)
    as [Hb|Hb]; cbn [negb]; [|cbn [fst]; lia].
  destruct (kzalloc_ok env); cbn [negb]; [|cbn [fst]; lia].
  destruct (Z.eqb_spec (ctrl_handler_error env) 0) as [He|He]; cbn [negb];
    [|cbn [fst]; intros; contradiction].
  destruct (Z.ltb_spec (video_register_device env) 0) as [Hv|Hv];
    [cbn [fst]; lia|].
  destruct (v4l2_ctrl_handler_setup env rda5807_s_ctrl _) as [err c2].
  destruct (Z.ltb_spec err 0) as [Hs|Hs]; [cbn [fst]; lia|].
  cbn [fst snd app]. intros _. repeat split; assumption.
Qed.

(** X20.  Probe fails before it allocates anything when the chip-ID read
    does not complete: it returns the negative error of the read (the errno
    of the bus as it came) and the host sees no call.  When the chip is
    the right one but the allocation fails, it returns [-ENOMEM] and the
    host has seen the allocation attempt alone.  Either way the chip-ID
    read is the only transfer on the bus. *)
Theorem probe_early_failure (env : host_env) (c : i2c_client) :
  let r := rda5807_i2c_probe env c in
  (completes 2 (faults c) = false ->
     fst (fst r) < 0 /\ snd (fst r) = [] /\
     trace (snd r) = trace c ++ [ read_xfer c RDA5807_REG_CHIPID ]) /\
  (forall e rest, faults c = XferErr e :: rest -> fst (fst r) = Z.neg e) /\
  (completes 2 (faults c) = true ->
   chip_reg16 c RDA5807_REG_CHIPID / 2 ^ 8 = 0x58 ->
   kzalloc_ok env = false ->
     fst (fst r) = - ENOMEM /\ snd (fst r) = [ Kzalloc ] /\
     trace (snd r) = trace c ++ [ read_xfer c RDA5807_REG_CHIPID ]).
Proof.
  intros r. subst r. unfold rda5807_i2c_probe, bind, ret.
  split; [|split].
  - intros F.
    destruct (i2c_read_fail RDA5807_REG_CHIPID c F) as (e & p & N & E).
    rewrite E.
    replace (e <? 0) with true by (symmetry; apply Z.ltb_lt; exact N).
    cbn [fst snd trace]. repeat split. exact N.
  - intros e rest F.
    pose proof (i2c_read_errno RDA5807_REG_CHIPID c e rest F) as Er.
    destruct (rda5807_i2c_read RDA5807_REG_CHIPID c) as [err c1].
    cbn [fst] in Er. subst err. reflexivity.
  - intros F Hb Hk. rewrite (i2c_read_ok _ c F).
    pose proof (u16_range (chip_regs c (reg_addr RDA5807_REG_CHIPID))) as R.
    fold (chip_reg16 c RDA5807_REG_CHIPID) in R.
    replace (chip_reg16 c RDA5807_REG_CHIPID <? 0) with false
      by (symmetry; apply Z.ltb_ge; lia).
    rewrite (chipid_high_byte _ R), Hb, Hk. cbn [negb Z.eqb Pos.eqb].
    repeat split.
Qed.

(** X21.  Once probe has allocated, every path on which it returns a
    non-zero value ends with the control handler freed, the video device
    released and the allocation freed, in that order; the video device is
    unregistered on exactly the paths that reached the setup of the
    controls. *)
Theorem probe_failure_cleans_up (env : host_env) (c : i2c_client) :
  completes 2 (faults c) = true ->
  chip_reg16 c RDA5807_REG_CHIPID / 2 ^ 8 = 0x58 ->
  kzalloc_ok env = true ->
  fst (fst (rda5807_i2c_probe env c)) <> 0 ->
  exists pre,
    snd (fst (rda5807_i2c_probe env c)) =
      Kzalloc :: pre
      ++ [ V4l2CtrlHandlerFree; VideoDeviceReleaseEmpty; Kfree ] /\
    (In VideoUnregisterDevice pre <-> In V4l2CtrlHandlerSetup pre) /\
    ~ In Kfree pre.
Proof.
  intros F Hb Hk. unfold rda5807_i2c_probe, bind, ret.
  rewrite (i2c_read_ok _ c F).
  pose proof (u16_range (chip_regs c (reg_addr RDA5807_REG_CHIPID))) as R.
  fold (chip_reg16 c RDA5807_REG_CHIPID) in R.
  replace (chip_reg16 c RDA5807_REG_CHIPID <? 0) with false
    by (symmetry; apply Z.ltb_ge; lia).
  rewrite (chipid_high_byte _ R), Hb, Hk. cbn [negb Z.eqb Pos.eqb].
  destruct (ctrl_handler_error env =? 0); cbn [negb].
  2:{ intros _. cbn [fst snd app err_ctrl_free].
      exists [ V4l2CtrlHandlerInit 3;
               V4l2CtrlNewStd V4L2_CID_AUDIO_MUTE 0 1 1 1;
               V4l2CtrlNewStd V4L2_CID_AUDIO_VOLUME 0 15 1 8;
               V4l2CtrlNewStdMenu V4L2_CID_TUNE_PREEMPHASIS
                 V4L2_PREEMPHASIS_75_uS (BIT V4L2_PREEMPHASIS_DISABLED)
                 V4L2_PREEMPHASIS_50_uS ].
      split; [reflexivity|].
      cbn [In]. split; [split|]; intros H; intuition discriminate. }
  destruct (video_register_device env <? 0).
  { intros _. cbn [fst snd app err_ctrl_free].
    exists [ V4l2CtrlHandlerInit 3;
             V4l2CtrlNewStd V4L2_CID_AUDIO_MUTE 0 1 1 1;
             V4l2CtrlNewStd V4L2_CID_AUDIO_VOLUME 0 15 1 8;
             V4l2CtrlNewStdMenu V4L2_CID_TUNE_PREEMPHASIS
               V4L2_PREEMPHASIS_75_uS (BIT V4L2_PREEMPHASIS_DISABLED)
               V4L2_PREEMPHASIS_50_uS;
             I2cSetClientdata; VideoSetDrvdata;
             VideoRegisterDevice VFL_TYPE_RADIO (-1) ].
    split; [reflexivity|].
    cbn [In]. split; [split|]; intros H; intuition discriminate. }
  destruct (v4l2_ctrl_handler_setup env rda5807_s_ctrl _) as [err c2].
  destruct (err <? 0).
  - intros _. cbn [fst snd app err_ctrl_free err_video_unreg].
    exists [ V4l2CtrlHandlerInit 3;
             V4l2CtrlNewStd V4L2_CID_AUDIO_MUTE 0 1 1 1;
             V4l2CtrlNewStd V4L2_CID_AUDIO_VOLUME 0 15 1 8;
             V4l2CtrlNewStdMenu V4L2_CID_TUNE_PREEMPHASIS
               V4L2_PREEMPHASIS_75_uS (BIT V4L2_PREEMPHASIS_DISABLED)
               V4L2_PREEMPHASIS_50_uS;
             I2cSetClientdata; VideoSetDrvdata;
             VideoRegisterDevice VFL_TYPE_RADIO (-1);
             V4l2CtrlHandlerSetup; VideoUnregisterDevice ].
    split; [reflexivity|].
    cbn [In]. split; [split|]; intros H; intuition discriminate.
  - cbn [fst]. intros N. contradiction.
Qed.

End ProbeOutcomes.

(** ** Suspend and resume *)

Section PowerManagement.

Context {K : kernel_headers}.

(** X22.  Suspend then resume, both returning 0: bit 0 (ENABLE) of CTRL ends
    up set exactly when the mute control holds 0, every other bit of CTRL is
    as it was before the suspend, and when the mute control holds a
    non-zero value the resume adds no transfer to those of the suspend. *)
Theorem suspend_then_resume (ctrl_handler : v4l2_ctrl_handler)
    (c : i2c_client) :
  let s := rda5807_suspend c in
  let r := rda5807_resume ctrl_handler (snd s) in
  let mute_val := cur_val ctrl_handler V4L2_CID_AUDIO_MUTE in
  fst s = 0 -> fst r = 0 ->
  Z.testbit (chip_reg16 (snd r) RDA5807_REG_CTRL) 0 = (mute_val =? 0) /\
  (forall i, 0 < i ->
     Z.testbit (chip_reg16 (snd r) RDA5807_REG_CTRL) i
       = Z.testbit (chip_reg16 c RDA5807_REG_CTRL) i) /\
  (mute_val <> 0 -> trace (snd r) = trace (snd s)).
Proof.
  intros s r mute_val Rs Rr.
  assert (Es : s = rda5807_update_reg RDA5807_REG_CTRL (BIT 0)
                     (if false then BIT 0 else 0) c) by reflexivity.
  rewrite Es in Rs.
  destruct (update_single_bit RDA5807_REG_CTRL 0 false c ltac:(lia) Rs)
    as [Bs Os].
  rewrite <- Es in Bs, Os.
  destruct (Z.eqb_spec mute_val 0) as [M|M].
  - assert (Er : r = rda5807_update_reg RDA5807_REG_CTRL (BIT 0)
                       (if true then BIT 0 else 0) (snd s)).
    { subst r. unfold rda5807_resume, v4l2_ctrl_g_ctrl, v4l2_ctrl_find.
      cbn [fst snd]. fold mute_val. rewrite M. reflexivity. }
    rewrite Er in Rr.
    destruct (update_single_bit RDA5807_REG_CTRL 0 true (snd s)
                ltac:(lia) Rr) as [Br Or].
    rewrite <- Er in Br, Or.
    split; [exact Br|]. split.
    + intros i Hi. rewrite Or, Os by lia. reflexivity.
    + intros N. contradiction.
  - assert (Er : r = (0, snd s)).
    { subst r. unfold rda5807_resume, v4l2_ctrl_g_ctrl, v4l2_ctrl_find,
        c_not.
      cbn [fst snd]. fold mute_val.
      destruct (Z.eqb_spec mute_val 0); [contradiction | reflexivity]. }
    rewrite Er. cbn [snd].
    split; [exact Bs|]. split.
    + intros i Hi. apply Os; lia.
    + intros _. reflexivity.
Qed.

End PowerManagement.

(** ** Concrete instances of the further properties *)

Lemma i2c_read_outcome_witness :
  fst (rda5807_i2c_read (K := linux_3_4) RDA5807_REG_CTRL
         (faulty_client 0x1234)) = -5 /\
  fst (rda5807_i2c_read (K := linux_3_4) RDA5807_REG_CTRL
         (quiet_client 0x1234)) = 0x1234.
Proof.
  destruct (i2c_read_outcome (K := linux_3_4) RDA5807_REG_CTRL
              (faulty_client 0x1234)) as (_ & _ & _ & _ & _ & He & _).
  destruct (i2c_read_outcome (K := linux_3_4) RDA5807_REG_CTRL
              (quiet_client 0x1234)) as (_ & _ & _ & Hok & _).
  split.
  - exact (He 5%positive [] eq_refl).
  - exact (proj1 (Hok eq_refl)).
Defined.

Lemma i2c_write_outcome_witness :
  let c := quiet_client 0 in
  let r := rda5807_i2c_write (K := linux_3_4) RDA5807_REG_CHAN 0xBEEF c in
  fst r = 0 /\
  chip_reg16 (snd r) RDA5807_REG_CHAN = 0xBEEF /\
  forall r', r' <> RDA5807_REG_CHAN -> chip_reg16 (snd r) r' = chip_reg16 c r'.
Proof.
  intros c r.
  destruct (i2c_write_outcome (K := linux_3_4) RDA5807_REG_CHAN 0xBEEF c)
    as (_ & _ & Hok & _).
  exact (Hok eq_refl).
Defined.

Lemma i2c_write_then_read_witness :
  let c := quiet_client 0 in
  let w := rda5807_i2c_write (K := linux_3_4) RDA5807_REG_CHAN 0x1BEEF c in
  fst w = 0 /\
  fst (rda5807_i2c_read (K := linux_3_4) RDA5807_REG_CHAN (snd w)) = 0xBEEF.
Proof.
  intros c w.
  exact (i2c_write_then_read (K := linux_3_4) RDA5807_REG_CHAN 0x1BEEF c
           eq_refl eq_refl).
Defined.

Lemma update_reg_failure_witness :
  let c := faulty_client 0x00FF in
  let r :=
    rda5807_update_reg (K := linux_3_4) RDA5807_REG_CTRL 0x4000 0x4000 c in
  fst r = -5 /\
  chip_regs (snd r) = chip_regs c /\
  trace (snd r) = trace c ++ [ read_xfer c RDA5807_REG_CTRL ].
Proof.
  intros c r.
  destruct (update_reg_failure (K := linux_3_4) RDA5807_REG_CTRL
              0x4000 0x4000 c) as (_ & Hregs & Htrace & Herr).
  split; [exact (Herr 5%positive [] eq_refl)|].
  split; [apply Hregs; vm_compute; discriminate | exact (Htrace eq_refl)].
Defined.

Lemma update_reg_bitwise_witness :
  let c := quiet_client 0 in
  let r :=
    rda5807_update_reg (K := linux_3_4) RDA5807_REG_INTM_THRESH_VOL
      0x000F 0x0010 c in
  fst r = 0 /\
  Z.testbit (chip_reg16 (snd r) RDA5807_REG_INTM_THRESH_VOL) 4 =
    Z.testbit 0x0010 4
    || Z.testbit (chip_reg16 c RDA5807_REG_INTM_THRESH_VOL) 4
       && negb (Z.testbit 0x000F 4).
Proof.
  intros c r. split; [reflexivity|].
  apply (update_reg_bitwise (K := linux_3_4) RDA5807_REG_INTM_THRESH_VOL
           0x000F 0x0010 c eq_refl 4).
  lia.
Defined.

Lemma update_reg_twice_witness :
  let c := quiet_client 0x0F0F in
  let r1 :=
    rda5807_update_reg (K := linux_3_4) RDA5807_REG_CTRL 0x00F0 0x0050 c in
  let r2 :=
    rda5807_update_reg (K := linux_3_4) RDA5807_REG_CTRL 0x00F0 0x0050
      (snd r1) in
  chip_reg16 (snd r2) RDA5807_REG_CTRL = chip_reg16 (snd r1) RDA5807_REG_CTRL.
Proof.
  intros c r1 r2.
  exact (update_reg_twice (K := linux_3_4) RDA5807_REG_CTRL 0x00F0 0x0050 c
           eq_refl eq_refl).
Defined.

Lemma update_reg_disjoint_commute_witness :
  let c := quiet_client 0xFFFF in
  let a := rda5807_update_reg (K := linux_3_4) RDA5807_REG_CTRL 1 1 c in
  let ab :=
    rda5807_update_reg (K := linux_3_4) RDA5807_REG_CTRL 0x4000 0 (snd a) in
  let b := rda5807_update_reg (K := linux_3_4) RDA5807_REG_CTRL 0x4000 0 c in
  let ba := rda5807_update_reg (K := linux_3_4) RDA5807_REG_CTRL 1 1 (snd b) in
  fst b = 0 /\ fst ba = 0 /\
  chip_reg16 (snd ba) RDA5807_REG_CTRL = chip_reg16 (snd ab) RDA5807_REG_CTRL.
Proof.
  intros c a ab b ba.
  destruct (update_reg_disjoint_commute (K := linux_3_4) RDA5807_REG_CTRL
              1 1 0x4000 0 c eq_refl eq_refl eq_refl eq_refl eq_refl)
    as (Hb & Hba & Heq & _).
  split; [exact Hb|]. split; [exact Hba | exact Heq].
Defined.

Lemma set_enable_effect_witness :
  let c := quiet_client 0xC000 in
  let c' := snd (rda5807_set_enable (K := linux_3_4) 1 c) in
  Z.testbit (chip_reg16 c' RDA5807_REG_CTRL) 0 = true /\
  forall i, 0 < i ->
    Z.testbit (chip_reg16 c' RDA5807_REG_CTRL) i
      = Z.testbit (chip_reg16 c RDA5807_REG_CTRL) i.
Proof.
  intros c c'.
  exact (set_enable_effect (K := linux_3_4) 1 c eq_refl).
Defined.

Lemma set_preemphasis_effect_witness :
  let c := quiet_client 0 in
  let c' := snd (rda5807_set_preemphasis (K := linux_3_4) 1 c) in
  Z.testbit (chip_reg16 c' RDA5807_REG_IOCFG) 11 = true /\
  forall i, 0 <= i -> i <> 11 ->
    Z.testbit (chip_reg16 c' RDA5807_REG_IOCFG) i
      = Z.testbit (chip_reg16 c RDA5807_REG_IOCFG) i.
Proof.
  intros c c'.
  exact (set_preemphasis_effect (K := linux_3_4) 1 c eq_refl).
Defined.

Lemma set_volume_effect_witness :
  let c := quiet_client 0x88B3 in
  let c' := snd (rda5807_set_volume (K := linux_3_4) 15 c) in
  Z.land (chip_reg16 c' RDA5807_REG_INTM_THRESH_VOL) RDA5807_MASK_VOLUME_DAC
    = 15 /\
  forall i, 4 <= i ->
    Z.testbit (chip_reg16 c' RDA5807_REG_INTM_THRESH_VOL) i
      = Z.testbit (chip_reg16 c RDA5807_REG_INTM_THRESH_VOL) i.
Proof.
  intros c c'.
  exact (set_volume_effect (K := linux_3_4) 15 c ltac:(lia) eq_refl).
Defined.

Lemma set_frequency_effect_witness :
  let c := quiet_client 0x0020 in
  let w :=
    chip_reg16 (snd (rda5807_set_frequency (K := linux_3_4) 87500 c))
      RDA5807_REG_CHAN in
  Z.shiftr (Z.land w RDA5807_MASK_CHAN_WRCHAN) RDA5807_SHIFT_CHAN_WRCHAN
    = (87500 - 76000 + 25) / 50 /\
  Z.shiftr (Z.land w RDA5807_MASK_CHAN_BAND) RDA5807_SHIFT_CHAN_BAND = 2 /\
  Z.shiftr (Z.land w RDA5807_MASK_CHAN_SPACE) RDA5807_SHIFT_CHAN_SPACE = 2 /\
  Z.land w RDA5807_MASK_CHAN_TUNE = RDA5807_MASK_CHAN_TUNE /\
  Z.testbit w 5 = Z.testbit (chip_reg16 c RDA5807_REG_CHAN) 5.
Proof.
  intros c w.
  exact (set_frequency_effect (K := linux_3_4) 87500 c ltac:(lia) eq_refl).
Defined.

Lemma channel_index_grid_witness :
  wrchan_of_khz (76000 + 50 * 440) = 440 /\
  wrchan_of_khz 87524 <= wrchan_of_khz 87526.
Proof.
  destruct channel_index_grid as (G & _ & M).
  split.
  - apply G. lia.
  - apply M; lia.
Defined.

Lemma invalid_arguments_rejected_witness :
  let c := quiet_client 0 in
  rda5807_s_ctrl (K := linux_3_4) (mk_ctrl 0 1) c = (-22, c) /\
  rda5807_vidioc_s_frequency (K := linux_3_4) (mk_frequency 1 1 1568000) c
    = (-22, c).
Proof.
  intros c.
  destruct (invalid_arguments_rejected (K := linux_3_4) c)
    as (_ & Hc & _ & Hf & _).
  split.
  - apply Hc; cbn; discriminate.
  - apply Hf. left. cbn. discriminate.
Defined.

Lemma s_ctrl_mute_effect_witness :
  let c := quiet_client 0xFFFF in
  let c' :=
    snd (rda5807_s_ctrl (K := linux_3_4)
           (mk_ctrl (V4L2_CID_AUDIO_MUTE (kernel_headers := linux_3_4)) 1)
           c) in
  Z.testbit (chip_reg16 c' RDA5807_REG_CTRL) 0 = false /\
  Z.testbit (chip_reg16 c' RDA5807_REG_CTRL) 14 = false /\
  (forall i, 0 <= i -> i <> 0 -> i <> 14 ->
     Z.testbit (chip_reg16 c' RDA5807_REG_CTRL) i
       = Z.testbit (chip_reg16 c RDA5807_REG_CTRL) i) /\
  length (trace c') = (length (trace c) + 4)%nat.
Proof.
  intros c c'.
  exact (s_ctrl_mute_effect (K := linux_3_4) 1 c eq_refl).
Defined.

Lemma g_tuner_failure_witness :
  let c := faulty_client 0x4400 in
  let r := rda5807_vidioc_g_tuner (K := linux_3_4) blank_tuner c in
  snd (fst r) = blank_tuner /\
  trace (snd r) = trace c ++ [ read_xfer c RDA5807_REG_SEEK_RESULT ].
Proof.
  intros c r.
  destruct (g_tuner_failure (K := linux_3_4) blank_tuner c)
    as (_ & _ & Ha & Ht).
  split.
  - apply Ha. vm_compute. discriminate.
  - exact (Ht eq_refl eq_refl).
Defined.

Lemma g_tuner_descriptor_witness :
  let a' :=
    snd (fst (rda5807_vidioc_g_tuner (K := linux_3_4) blank_tuner
                (quiet_client 0xFE00))) in
  rangelow a' = 1216000 /\ rangehigh a' = 1728000 /\
  0 <= signal a' <= 65024 /\ signal a' mod 512 = 0.
Proof.
  intros a'.
  destruct (g_tuner_descriptor (K := linux_3_4) blank_tuner
              (quiet_client 0xFE00) eq_refl)
    as (_ & _ & _ & _ & Hl & Hh & _ & _ & _ & Hs & Hm).
  split; [exact Hl|]. split; [exact Hh|]. split; [exact Hs | exact Hm].
Defined.

Lemma s_frequency_accepted_range_witness :
  let c := quiet_client 0 in
  rda5807_vidioc_s_frequency (K := linux_3_4) (mk_frequency 0 1 1728000) c
    = rda5807_update_reg (K := linux_3_4) RDA5807_REG_CHAN chan_mask
        (chan_word ((1728000 / 16 - 76000 + 25) / 50)) c /\
  rda5807_vidioc_s_frequency (K := linux_3_4) (mk_frequency 0 1 1728016) c
    = (-34, c).
Proof.
  intros c. split.
  - apply (s_frequency_accepted_range (K := linux_3_4)
             (mk_frequency 0 1 1728000) c eq_refl eq_refl ltac:(cbn; lia)).
    cbn. lia.
  - apply (s_frequency_accepted_range (K := linux_3_4)
             (mk_frequency 0 1 1728016) c eq_refl eq_refl ltac:(cbn; lia)).
    right. cbn. lia.
Defined.

Lemma s_frequency_wraps_into_band_witness :
  let c := quiet_client 0 in
  let khz := (8087948 * 625 - 2 ^ 32) / 10000 in
  76000 <= khz <= 108000 /\
  rda5807_vidioc_s_frequency (K := linux_3_4) (mk_frequency 0 1 8087948) c
    = rda5807_update_reg (K := linux_3_4) RDA5807_REG_CHAN chan_mask
        (chan_word ((khz - 76000 + 25) / 50)) c.
Proof.
  intros c khz.
  exact (s_frequency_wraps_into_band (K := linux_3_4)
           (mk_frequency 0 1 8087948) c eq_refl eq_refl
           ltac:(cbn; lia)).
Defined.

Lemma probe_success_witness :
  let r := rda5807_i2c_probe (K := linux_3_4) willing_host family_client in
  let c1 :=
    snd (rda5807_i2c_read (K := linux_3_4) RDA5807_REG_CHIPID
           family_client) in
  let setup :=
    v4l2_ctrl_handler_setup willing_host (rda5807_s_ctrl (K := linux_3_4))
      c1 in
  fst (fst r) = 0 /\
  0 <= fst setup /\
  snd r = snd setup /\
  snd (fst r)
    = [ Kzalloc;
        V4l2CtrlHandlerInit 3;
        V4l2CtrlNewStd 0x00980909 0 1 1 1;
        V4l2CtrlNewStd 0x00980905 0 15 1 8;
        V4l2CtrlNewStdMenu 0x009b0970 2 1 1;
        I2cSetClientdata;
        VideoSetDrvdata;
        VideoRegisterDevice 2 (-1);
        V4l2CtrlHandlerSetup ].
Proof.
  intros r c1 setup. split; [reflexivity|].
  exact (proj2 (proj2 (proj2 (proj2 (proj2
           (probe_success (K := linux_3_4) willing_host family_client
              eq_refl)))))).
Defined.

Lemma probe_early_failure_witness :
  let r := rda5807_i2c_probe (K := linux_3_4) starved_host family_client in
  fst (fst r) = -12 /\ snd (fst r) = [ Kzalloc ] /\
  trace (snd r)
    = trace family_client ++ [ read_xfer family_client RDA5807_REG_CHIPID ].
Proof.
  intros r.
  destruct (probe_early_failure (K := linux_3_4) starved_host family_client)
    as (_ & _ & H).
  exact (H eq_refl eq_refl eq_refl).
Defined.

Lemma probe_failure_cleans_up_witness :
  exists pre,
    snd (fst (rda5807_i2c_probe (K := linux_3_4) setup_failing_host
                family_client)) =
      Kzalloc :: pre
      ++ [ V4l2CtrlHandlerFree; VideoDeviceReleaseEmpty; Kfree ] /\
    (In VideoUnregisterDevice pre <-> In V4l2CtrlHandlerSetup pre) /\
    ~ In Kfree pre.
Proof.
  apply (probe_failure_cleans_up (K := linux_3_4) setup_failing_host
           family_client eq_refl eq_refl eq_refl).
  vm_compute. discriminate.
Defined.

Lemma suspend_then_resume_witness :
  let hdl := mk_handler (fun _ => 0) in
  let c := quiet_client 0xC001 in
  let s := rda5807_suspend (K := linux_3_4) c in
  let r := rda5807_resume (K := linux_3_4) hdl (snd s) in
  Z.testbit (chip_reg16 (snd r) RDA5807_REG_CTRL) 0 = true /\
  forall i, 0 < i ->
    Z.testbit (chip_reg16 (snd r) RDA5807_REG_CTRL) i
      = Z.testbit (chip_reg16 c RDA5807_REG_CTRL) i.
Proof.
  intros hdl c s r.
  destruct (suspend_then_resume (K := linux_3_4) hdl c eq_refl eq_refl)
    as (H0 & Hi & _).
  split; [exact H0 | exact Hi].
Defined.
